(** * Weather pop-up: the Python sources embedded in Rocq

    The development follows the two source files of [planning/weather-popup]:

    - [weather_fetcher.py]: class [WeatherFetcher] with [search_location] and
      [get_forecast];
    - [get_current_weather.py]: [get_current_conditions], [format_simple],
      [format_minimal], [format_detailed] and [main].

    Python values are a small universe [pyval] (what [json.loads] produces,
    which is also what the functions build).  Code that prints and raises
    lives in a writer-plus-exception monad [io]; the network is a function
    from requests to outcomes.  Python's builtins used by the sources
    ([float], [format], [repr], [str.replace], [str.strip], [json.dumps]) are
    modelled on exact integer arithmetic; a [str] is the string of its UTF-8
    bytes. *)

From Stdlib Require Import ZArith List String Ascii Bool Lia.
From Stdlib Require Import SpecFloat.
From Stdlib Require Decimal DecimalString.
Import ListNotations.

Local Open Scope string_scope.
Local Open Scope Z_scope.

(** ** Bytes and text *)

Definition code (c : ascii) : Z := Z.of_N (N_of_ascii c).
Definition chr (n : Z) : ascii := ascii_of_N (Z.to_N n).
Definition str1 (c : ascii) : string := String c "".

Definition LF : string := str1 (chr 10).

Fixpoint forall_chars (p : ascii -> bool) (s : string) : bool :=
  match s with
  | "" => true
  | String c s' => p c && forall_chars p s'
  end.

Fixpoint exists_char (p : ascii -> bool) (s : string) : bool :=
  match s with
  | "" => false
  | String c s' => p c || exists_char p s'
  end.

Definition is_ascii_char (c : ascii) : bool := code c <? 128.
Definition is_ascii (s : string) : bool := forall_chars is_ascii_char s.

Definition is_digit (c : ascii) : bool := (48 <=? code c) && (code c <=? 57).
Definition digit_val (c : ascii) : Z := code c - 48.

(** C's [Py_ISSPACE]: tab, newline, vertical tab, form feed, carriage return
    and space. *)
Definition is_c_space (c : ascii) : bool :=
  ((9 <=? code c) && (code c <=? 13)) || (code c =? 32).

Definition lower (c : ascii) : ascii :=
  if (65 <=? code c) && (code c <=? 90) then chr (code c + 32) else c.

Fixpoint lower_str (s : string) : string :=
  match s with
  | "" => ""
  | String c s' => String (lower c) (lower_str s')
  end.

Fixpoint rev_str_onto (s acc : string) : string :=
  match s with
  | "" => acc
  | String c s' => rev_str_onto s' (String c acc)
  end.

Definition rev_str (s : string) : string := rev_str_onto s "".

Fixpoint repeat_str (s : string) (n : nat) : string :=
  match n with
  | O => ""
  | S n' => s ++ repeat_str s n'
  end.

Fixpoint drop (n : nat) (s : string) : string :=
  match n, s with
  | O, _ => s
  | S n', String _ s' => drop n' s'
  | S _, "" => ""
  end.

Fixpoint take (n : nat) (s : string) : string :=
  match n, s with
  | S n', String c s' => String c (take n' s')
  | _, _ => ""
  end.

(** A continuation byte of a UTF-8 sequence is [10xxxxxx]. *)
Definition is_continuation (c : ascii) : bool :=
  (128 <=? code c) && (code c <? 192).

(** The code points of a [str], each as the string of its UTF-8 bytes. *)
Fixpoint utf8_chars (s : string) : list string :=
  match s with
  | "" => []
  | String c rest =>
      let tail := utf8_chars rest in
      match rest with
      | String c' _ =>
          if is_continuation c'
          then match tail with
               | ch :: chs => String c ch :: chs
               | [] => [str1 c]
               end
          else str1 c :: tail
      | "" => [str1 c]
      end
  end.

(** [len(s)] and [s[:n]] count code points. *)
Definition str_len (s : string) : Z := Z.of_nat (List.length (utf8_chars s)).
Definition str_slice_to (n : nat) (s : string) : string :=
  String.concat "" (firstn n (utf8_chars s)).

(** [s.replace(old, new)]: every non-overlapping occurrence, left to right.
    [skip] counts the bytes of a match that are still to be passed over. *)
Fixpoint replace_from (old new : string) (skip : nat) (s : string) : string :=
  match s with
  | "" => ""
  | String c s' =>
      match skip with
      | S k => replace_from old new k s'
      | O =>
          if String.prefix old s
          then new ++ replace_from old new (Nat.pred (String.length old)) s'
          else String c (replace_from old new O s')
      end
  end.

(** With an empty pattern Python puts [new] before every code point and at
    the end. *)
Definition str_replace (old new s : string) : string :=
  match old with
  | "" => String.concat "" (map (fun ch => new ++ ch) (utf8_chars s)) ++ new
  | _ => replace_from old new O s
  end.

(** The code points for which [str.isspace] holds, as UTF-8 byte strings:
    U+0009..U+000D, U+001C..U+0020, U+0085, U+00A0, U+1680, U+2000..U+200A,
    U+2028, U+2029, U+202F, U+205F and U+3000. *)
Definition bytes (l : list Z) : string :=
  fold_right (fun n s => String (chr n) s) "" l.

Definition unicode_spaces : list string :=
  map (fun n => bytes [n]) [9; 10; 11; 12; 13; 28; 29; 30; 31; 32]
  ++ [bytes [194; 133]; bytes [194; 160]; bytes [225; 154; 128]]
  ++ map (fun n => bytes [226; 128; n])
       [128; 129; 130; 131; 132; 133; 134; 135; 136; 137; 138; 168; 169; 175]
  ++ [bytes [226; 129; 159]; bytes [227; 128; 128]].

Definition is_py_space (ch : string) : bool :=
  existsb (String.eqb ch) unicode_spaces.

Fixpoint drop_while_space (chs : list string) : list string :=
  match chs with
  | ch :: rest => if is_py_space ch then drop_while_space rest else chs
  | [] => []
  end.

(** [s.strip()] *)
Definition str_strip (s : string) : string :=
  String.concat ""
    (rev (drop_while_space (rev (drop_while_space (utf8_chars s))))).

(** Decimal numerals. *)
Definition nat_str (n : N) : string :=
  DecimalString.NilZero.string_of_uint (N.to_uint n).

Definition int_str (z : Z) : string :=
  match z with
  | Zneg p => "-" ++ nat_str (Npos p)
  | _ => nat_str (Z.to_N z)
  end.

Definition hex_digit (n : Z) : ascii :=
  if n <? 10 then chr (48 + n) else chr (87 + n).

Definition hex2 (n : Z) : string :=
  String (hex_digit (n / 16)) (str1 (hex_digit (n mod 16))).

(** The value of a string of decimal digits. *)
Fixpoint digits_val_onto (acc : Z) (s : string) : Z :=
  match s with
  | "" => acc
  | String c s' => digits_val_onto (10 * acc + digit_val c) s'
  end.

Definition digits_val (s : string) : Z := digits_val_onto 0 s.

(** The longest prefix of decimal digits, and the rest. *)
Fixpoint span_digits (s : string) : string * string :=
  match s with
  | String c s' =>
      if is_digit c
      then let '(ds, rest) := span_digits s' in (String c ds, rest)
      else ("", s)
  | "" => ("", "")
  end.

(** ** Floats

    A Python [float] is an IEEE 754 binary64 number, here a [spec_float] of
    the Standard Library with precision 53 and [emax = 1024]; conversions
    from and to decimal are exact computations on integers, rounded to
    nearest with ties to even as CPython's [dtoa.c] does. *)

Definition prec : Z := 53.
Definition emax : Z := 1024.

Definition float_eqb (x y : spec_float) : bool :=
  match x, y with
  | S754_zero a, S754_zero b => Bool.eqb a b
  | S754_infinity a, S754_infinity b => Bool.eqb a b
  | S754_nan, S754_nan => true
  | S754_finite a m e, S754_finite b n f =>
      Bool.eqb a b && Pos.eqb m n && Z.eqb e f
  | _, _ => false
  end.

(** The float nearest to [num / den]. *)
Definition round_ratio (neg : bool) (num den : positive) : spec_float :=
  SFdiv prec emax (S754_finite neg num 0) (S754_finite false den 0).

(** The float nearest to [d * 10 ^ k], for [0 <= d]. *)
Definition round_decimal (neg : bool) (d k : Z) : spec_float :=
  match d * 10 ^ Z.max k 0 with
  | Zpos num => round_ratio neg num (Z.to_pos (10 ^ Z.max (- k) 0))
  | _ => S754_zero neg
  end.

(** [float(n)] for an [int]: [None] stands for the overflow. *)
Definition float_of_int (n : Z) : option spec_float :=
  match binary_normalize prec emax n 0 false with
  | S754_infinity _ => None
  | x => Some x
  end.

Definition parse_sign (s : string) : bool * string :=
  match s with
  | String "-" r => (true, r)
  | String "+" r => (false, r)
  | _ => (false, s)
  end.

(** An exponent part [e], sign, digits; without a digit nothing is taken. *)
Definition parse_exponent (s : string) : Z * string :=
  match s with
  | String c r =>
      if Ascii.eqb (lower c) "e"
      then let '(neg, r') := parse_sign r in
           let '(ds, rest) := span_digits r' in
           match ds with
           | "" => (0, s)
           | _ => (cond_Zopp neg (digits_val ds), rest)
           end
      else (0, s)
  | "" => (0, "")
  end.

(** A whole string as a decimal numeral: sign, digits, point, digits,
    exponent, with a digit before or after the point. *)
Definition parse_decimal (s : string) : option spec_float :=
  let '(neg, s1) := parse_sign s in
  let '(ip, s2) := span_digits s1 in
  let '(fp, s3) :=
    match s2 with
    | String "." r => span_digits r
    | _ => ("", s2)
    end in
  match ip ++ fp with
  | "" => None
  | ds =>
      let '(e, s4) := parse_exponent s3 in
      match s4 with
      | "" => Some (round_decimal neg (digits_val ds)
                      (e - Z.of_nat (String.length fp)))
      | _ => None
      end
  end.

Definition parse_inf_nan (s : string) : option spec_float :=
  let '(neg, r) := parse_sign s in
  let l := lower_str r in
  if String.eqb l "inf" || String.eqb l "infinity" then Some (S754_infinity neg)
  else if String.eqb l "nan" then Some S754_nan
  else None.

(** Underscores are allowed between two digits only. *)
Fixpoint strip_underscores (prev : ascii) (s : string) : option string :=
  match s with
  | "" => if Ascii.eqb prev "_" then None else Some ""
  | String c r =>
      if Ascii.eqb c "_"
      then if is_digit prev then strip_underscores c r else None
      else if Ascii.eqb prev "_" && negb (is_digit c) then None
           else option_map (String c) (strip_underscores c r)
  end.

Fixpoint lstrip_c (s : string) : string :=
  match s with
  | String c r => if is_c_space c then lstrip_c r else s
  | "" => ""
  end.

Definition strip_c (s : string) : string :=
  rev_str (lstrip_c (rev_str (lstrip_c s))).

(** [float(s)] for an ASCII string; [None] stands for the [ValueError]. *)
Definition float_of_ascii (s : string) : option spec_float :=
  match strip_underscores (chr 0) s with
  | None => None
  | Some t =>
      let t := strip_c t in
      match parse_decimal t with
      | Some x => Some x
      | None => parse_inf_nan t
      end
  end.

(** The exact value of a finite float as a fraction. *)
Definition ratio_of (m : positive) (e : Z) : Z * Z :=
  if 0 <=? e then (Zpos m * 2 ^ e, 1) else (Zpos m, 2 ^ (- e)).

Definition scale10 (num den k : Z) : Z * Z :=
  if 0 <=? k then (num * 10 ^ k, den) else (num, den * 10 ^ (- k)).

Definition round_half_even (num den : Z) : Z :=
  let q := num / den in
  match 2 * (num mod den) ?= den with
  | Lt => q
  | Gt => q + 1
  | Eq => if Z.even q then q else q + 1
  end.

Definition sign_str (neg : bool) : string := if neg then "-" else "".

(** [p] decimals of a numeral: the point goes before the last [p] digits. *)
Definition put_point (p : nat) (ds : string) : string :=
  let ds := repeat_str "0" (S p - String.length ds) ++ ds in
  let n := (String.length ds - p)%nat in
  match p with
  | O => ds
  | _ => take n ds ++ "." ++ drop n ds
  end.

(** [format(x, '.pf')] *)
Definition format_f (p : nat) (x : spec_float) : string :=
  match x with
  | S754_nan => "nan"
  | S754_infinity s => sign_str s ++ "inf"
  | S754_zero s => sign_str s ++ put_point p "0"
  | S754_finite s m e =>
      let '(num, den) := ratio_of m e in
      let n := round_half_even (num * 10 ^ Z.of_nat p) den in
      sign_str s ++ put_point p (nat_str (Z.to_N n))
  end.

Definition ndigits (z : Z) : Z := Z.of_nat (String.length (nat_str (Z.to_N z))).

(** The position of the decimal point:
    [10 ^ (decpt - 1) <= num / den < 10 ^ decpt]. *)
Definition decpt_of (num den : Z) : Z :=
  let k := ndigits den - ndigits num in
  let '(n, d) := scale10 num den k in
  if d <=? n then 1 - k else - k.

(** The [n]-digit numeral next to [num / den] that reads back as [x], if
    there is one; of two, the nearer. *)
Definition digits_at (x : spec_float) (num den decpt : Z) (n : Z) : option Z :=
  let '(sn, sd) := scale10 num den (n - decpt) in
  let lo := sn / sd in
  let back v := float_eqb (round_decimal false v (decpt - n)) x in
  if sn mod sd =? 0 then (if back lo then Some lo else None)
  else
    match back lo, back (lo + 1) with
    | true, true => Some (round_half_even sn sd)
    | true, false => Some lo
    | false, true => Some (lo + 1)
    | false, false => None
    end.

Fixpoint first_digits (x : spec_float) (num den decpt : Z) (n : Z) (fuel : nat)
  : Z * Z :=
  match fuel with
  | O => let '(sn, sd) := scale10 num den (n - decpt) in
         (round_half_even sn sd, n)
  | S fuel' =>
      match digits_at x num den decpt n with
      | Some v => (v, n)
      | None => first_digits x num den decpt (n + 1) fuel'
      end
  end.

Fixpoint lstrip_zeros (s : string) : string :=
  match s with
  | String "0" r => lstrip_zeros r
  | _ => s
  end.

Definition rstrip_zeros (s : string) : string :=
  rev_str (lstrip_zeros (rev_str s)).

(** The shortest digits that read back as the float [m * 2 ^ e], and the
    position of the decimal point ([dtoa] in mode 0). *)
Definition shortest_digits (m : positive) (e : Z) : string * Z :=
  let x := binary_normalize prec emax (Zpos m) e false in
  let '(num, den) := ratio_of m e in
  let decpt := decpt_of num den in
  let '(v, n) := first_digits x num den decpt 1 16 in
  let ds := nat_str (Z.to_N v) in
  (rstrip_zeros ds, decpt + (Z.of_nat (String.length ds) - n)).

(** [repr(x)]: the shortest digits, with an exponent when the decimal point
    is more than 16 places to the right or 4 to the left. *)
Definition float_repr (x : spec_float) : string :=
  match x with
  | S754_nan => "nan"
  | S754_infinity s => sign_str s ++ "inf"
  | S754_zero s => sign_str s ++ "0.0"
  | S754_finite s m e =>
      let '(ds, decpt) := shortest_digits m e in
      let n := Z.of_nat (String.length ds) in
      sign_str s ++
      (if (decpt <=? -4) || (16 <? decpt) then
         let ex := decpt - 1 in
         let es := nat_str (Z.to_N (Z.abs ex)) in
         take 1 ds
         ++ (if 1 <? n then "." ++ drop 1 ds else "")
         ++ "e" ++ (if ex <? 0 then "-" else "+")
         ++ repeat_str "0" (2 - String.length es) ++ es
       else if decpt <=? 0 then
         "0." ++ repeat_str "0" (Z.to_nat (- decpt)) ++ ds
       else if n <=? decpt then
         ds ++ repeat_str "0" (Z.to_nat (decpt - n)) ++ ".0"
       else
         take (Z.to_nat decpt) ds ++ "." ++ drop (Z.to_nat decpt) ds)
  end.

(** ** Python values

    The values [json.loads] builds, which are also the values the program
    passes around.  A [dict] keeps its items in insertion order; its keys are
    strings and distinct, and a lookup takes the first item with the key. *)

#[warnings="-register-all"]
Inductive pyval : Type :=
| PNone
| PBool (b : bool)
| PInt (n : Z)
| PFloat (x : spec_float)
| PStr (s : string)
| PList (xs : list pyval)
| PDict (items : list (string * pyval)).

Fixpoint dict_lookup (k : string) (items : list (string * pyval))
  : option pyval :=
  match items with
  | [] => None
  | (k', v) :: rest => if String.eqb k k' then Some v else dict_lookup k rest
  end.

(** [bool(v)] *)
Definition truthy (v : pyval) : bool :=
  match v with
  | PNone => false
  | PBool b => b
  | PInt n => negb (n =? 0)
  | PFloat (S754_zero _) => false
  | PFloat _ => true
  | PStr s => negb (String.eqb s "")
  | PList xs => negb (Nat.eqb (List.length xs) 0)
  | PDict items => negb (Nat.eqb (List.length items) 0)
  end.

(** [type(v).__name__] *)
Definition type_name (v : pyval) : string :=
  match v with
  | PNone => "NoneType"
  | PBool _ => "bool"
  | PInt _ => "int"
  | PFloat _ => "float"
  | PStr _ => "str"
  | PList _ => "list"
  | PDict _ => "dict"
  end.

Definition is_dict (v : pyval) : bool :=
  match v with PDict _ => true | _ => false end.

Definition is_list (v : pyval) : bool :=
  match v with PList _ => true | _ => false end.

(** What Python takes from the Unicode character database and this
    development does not compute: [repr] of a [str] that is not ASCII (which
    code points are printable), and the ASCII form [float] gives a [str] that
    is not ASCII (decimal digits and spaces of other scripts). *)
Class Unicode : Type := {
  repr_nonascii : string -> string;
  decimal_and_space_to_ascii : string -> string
}.

Definition quote2 : ascii := chr 34.
Definition backslash : ascii := chr 92.

(** [repr] of an ASCII [str]: single quotes, unless it holds one and no
    double quote. *)
Definition repr_ascii (s : string) : string :=
  let q := if exists_char (Ascii.eqb "'") s
              && negb (exists_char (Ascii.eqb quote2) s)
           then quote2 else "'"%char in
  let esc (c : ascii) : string :=
    if Ascii.eqb c q || Ascii.eqb c backslash then String backslash (str1 c)
    else if code c =? 9 then String backslash "t"
    else if code c =? 10 then String backslash "n"
    else if code c =? 13 then String backslash "r"
    else if (code c <? 32) || (code c =? 127)
         then String backslash ("x" ++ hex2 (code c))
    else str1 c in
  String q (String.concat "" (map esc (list_ascii_of_string s))) ++ str1 q.

(** [json.dumps] of a [str] with [ensure_ascii=False]. *)
Definition json_string (s : string) : string :=
  let esc (c : ascii) : string :=
    if Ascii.eqb c quote2 || Ascii.eqb c backslash then String backslash (str1 c)
    else if code c =? 8 then String backslash "b"
    else if code c =? 12 then String backslash "f"
    else if code c =? 10 then String backslash "n"
    else if code c =? 13 then String backslash "r"
    else if code c =? 9 then String backslash "t"
    else if code c <? 32 then String backslash ("u00" ++ hex2 (code c))
    else str1 c in
  String quote2 (String.concat "" (map esc (list_ascii_of_string s)))
  ++ str1 quote2.

Definition json_float (x : spec_float) : string :=
  match x with
  | S754_nan => "NaN"
  | S754_infinity false => "Infinity"
  | S754_infinity true => "-Infinity"
  | _ => float_repr x
  end.

(** [json.dumps(v, ensure_ascii=False, indent=2)], at nesting depth
    [level]. *)
Fixpoint json_encode (level : nat) (v : pyval) : string :=
  let inner := LF ++ repeat_str "  " (S level) in
  let outer := LF ++ repeat_str "  " level in
  match v with
  | PNone => "null"
  | PBool b => if b then "true" else "false"
  | PInt n => int_str n
  | PFloat x => json_float x
  | PStr s => json_string s
  | PList xs =>
      match xs with
      | [] => "[]"
      | _ => "[" ++ inner
             ++ String.concat ("," ++ inner) (map (json_encode (S level)) xs)
             ++ outer ++ "]"
      end
  | PDict items =>
      match items with
      | [] => "{}"
      | _ => "{" ++ inner
             ++ String.concat ("," ++ inner)
                  (map (fun kv => json_string (fst kv) ++ ": "
                                  ++ json_encode (S level) (snd kv)) items)
             ++ outer ++ "}"
      end
  end.

Definition json_dumps (v : pyval) : string := json_encode 0 v.

Section Builtins.
Context {U : Unicode}.

Definition repr_str (s : string) : string :=
  if is_ascii s then repr_ascii s else repr_nonascii s.

(** [repr(v)] *)
Fixpoint py_repr (v : pyval) : string :=
  match v with
  | PNone => "None"
  | PBool b => if b then "True" else "False"
  | PInt n => int_str n
  | PFloat x => float_repr x
  | PStr s => repr_str s
  | PList xs => "[" ++ String.concat ", " (map py_repr xs) ++ "]"
  | PDict items =>
      "{" ++ String.concat ", "
               (map (fun kv => repr_str (fst kv) ++ ": " ++ py_repr (snd kv))
                  items)
      ++ "}"
  end.

(** [str(v)], which is also [format(v, '')] and what an f-string field
    without a format gives. *)
Definition py_str (v : pyval) : string :=
  match v with
  | PStr s => s
  | _ => py_repr v
  end.

(** [float(s)] for a [str]. *)
Definition float_of_str (s : string) : option spec_float :=
  float_of_ascii (if is_ascii s then s else decimal_and_space_to_ascii s).

End Builtins.

(** ** Exceptions, results and output

    The messages are those of CPython 3.11.  [RequestException] stands for
    [requests.exceptions.RequestException] and its subclasses
    ([ConnectionError], [Timeout], [HTTPError], [JSONDecodeError]). *)

Inductive exn : Type :=
| KeyError (key : pyval)
| IndexError (msg : string)
| TypeError (msg : string)
| ValueError (msg : string)
| OverflowError (msg : string)
| AttributeError (msg : string)
| UnboundLocalError (msg : string)
| RequestException (msg : string)
| SystemExit (status : Z).

Inductive outcome (A : Type) : Type :=
| Return (a : A)
| Raise (e : exn).

Arguments Return {A} a.
Arguments Raise {A} e.

Definition obind {A B : Type} (m : outcome A) (k : A -> outcome B)
  : outcome B :=
  match m with
  | Return a => k a
  | Raise e => Raise e
  end.

(** One [print] call: the text, without the newline [print] adds. *)
Inductive event : Type :=
| Stdout (text : string)
| Stderr (text : string).

(** A computation that prints and then returns or raises. *)
Definition io (A : Type) : Type := (list event * outcome A)%type.

Definition ret {A : Type} (a : A) : io A := ([], Return a).
Definition raise {A : Type} (e : exn) : io A := ([], Raise e).
Definition lift {A : Type} (m : outcome A) : io A := ([], m).

Definition bind {A B : Type} (m : io A) (k : A -> io B) : io B :=
  match m with
  | (out, Return a) => let '(out', r) := k a in ((out ++ out')%list, r)
  | (out, Raise e) => (out, Raise e)
  end.

(** [try: body except (classes) as e: handler] *)
Definition try_except {A : Type} (body : io A) (catches : exn -> bool)
  (handler : exn -> io A) : io A :=
  match body with
  | (out, Raise e) =>
      if catches e
      then let '(out', r) := handler e in ((out ++ out')%list, r)
      else (out, Raise e)
  | done => done
  end.

Definition print (s : string) : io unit := ([Stdout s], Return tt).
Definition print_stderr (s : string) : io unit := ([Stderr s], Return tt).

Notation "'let?' x ':=' m 'in' k" := (obind m (fun x => k))
  (at level 10, x name, m at level 100, k at level 200, only parsing).
Notation "x <- m ;; k" := (bind m (fun x => k))
  (at level 100, m at next level, right associativity, only parsing).
Notation "x <~ m ;; k" := (bind (lift m) (fun x => k))
  (at level 100, m at next level, right associativity, only parsing).
Notation "m ;; k" := (bind m (fun _ => k))
  (at level 100, right associativity, only parsing).

(** ** Operations on values *)

(** A subscript: a [str] key or an [int] index. *)
Inductive index : Type :=
| IStr (k : string)
| IInt (n : Z).

(** [xs[n]] on a sequence: a negative index counts from the end. *)
Definition seq_index {A : Type} (xs : list A) (n : Z) : option A :=
  let len := Z.of_nat (List.length xs) in
  if 0 <=? n then nth_error xs (Z.to_nat n)
  else if 0 <=? len + n then nth_error xs (Z.to_nat (len + n))
  else None.

(** [v[i]] *)
Definition py_getitem (v : pyval) (i : index) : outcome pyval :=
  match v, i with
  | PDict items, IStr k =>
      match dict_lookup k items with
      | Some x => Return x
      | None => Raise (KeyError (PStr k))
      end
  | PDict _, IInt n => Raise (KeyError (PInt n))
  | PList xs, IInt n =>
      match seq_index xs n with
      | Some x => Return x
      | None => Raise (IndexError "list index out of range")
      end
  | PList _, IStr _ =>
      Raise (TypeError "list indices must be integers or slices, not str")
  | PStr s, IInt n =>
      match seq_index (utf8_chars s) n with
      | Some ch => Return (PStr ch)
      | None => Raise (IndexError "string index out of range")
      end
  | PStr _, IStr _ =>
      Raise (TypeError "string indices must be integers, not 'str'")
  | _, _ =>
      Raise (TypeError ("'" ++ type_name v ++ "' object is not subscriptable"))
  end.

(** [v[k1][k2]...] *)
Fixpoint subscripts (v : pyval) (keys : list string) : outcome pyval :=
  match keys with
  | [] => Return v
  | k :: rest => let? x := py_getitem v (IStr k) in subscripts x rest
  end.

(** [len(v)] *)
Definition py_len (v : pyval) : outcome Z :=
  match v with
  | PStr s => Return (str_len s)
  | PList xs => Return (Z.of_nat (List.length xs))
  | PDict items => Return (Z.of_nat (List.length items))
  | _ => Raise (TypeError ("object of type '" ++ type_name v ++ "' has no len()"))
  end.

Definition no_attribute (v : pyval) (name : string) : exn :=
  AttributeError
    ("'" ++ type_name v ++ "' object has no attribute '" ++ name ++ "'").

(** [v.get(k, default)] *)
Definition py_get (v : pyval) (k : string) (default : pyval) : outcome pyval :=
  match v with
  | PDict items =>
      match dict_lookup k items with
      | Some x => Return x
      | None => Return default
      end
  | _ => Raise (no_attribute v "get")
  end.

(** [v.replace(old, new)] *)
Definition py_replace (v : pyval) (old new : string) : outcome pyval :=
  match v with
  | PStr s => Return (PStr (str_replace old new s))
  | _ => Raise (no_attribute v "replace")
  end.

Definition int_to_float (n : Z) : outcome spec_float :=
  match float_of_int n with
  | Some x => Return x
  | None => Raise (OverflowError "int too large to convert to float")
  end.

(** [format(v, '.pf')], the f-string field [{v:.pf}]. *)
Definition py_format_f (p : nat) (v : pyval) : outcome string :=
  match v with
  | PFloat x => Return (format_f p x)
  | PInt n => let? x := int_to_float n in Return (format_f p x)
  | PBool b => Return (format_f p (if b then round_decimal false 1 0
                                   else S754_zero false))
  | PStr _ =>
      Raise (ValueError "Unknown format code 'f' for object of type 'str'")
  | _ =>
      Raise (TypeError ("unsupported format string passed to "
                        ++ type_name v ++ ".__format__"))
  end.

Section Conversions.
Context {U : Unicode}.

(** [float(v)] *)
Definition py_float (v : pyval) : outcome spec_float :=
  match v with
  | PFloat x => Return x
  | PInt n => int_to_float n
  | PBool b => Return (if b then round_decimal false 1 0 else S754_zero false)
  | PStr s =>
      match float_of_str s with
      | Some x => Return x
      | None =>
          Raise (ValueError ("could not convert string to float: "
                             ++ repr_str s))
      end
  | _ =>
      Raise (TypeError ("float() argument must be a string or a real number, "
                        ++ "not '" ++ type_name v ++ "'"))
  end.

(** [str(e)] *)
Definition exn_str (e : exn) : string :=
  match e with
  | KeyError key => py_repr key
  | IndexError msg | TypeError msg | ValueError msg | OverflowError msg
  | AttributeError msg | UnboundLocalError msg | RequestException msg => msg
  | SystemExit status => int_str status
  end.

End Conversions.

(** ** The network

    [requests] is not modelled: the world answers a request with a response
    or fails to, and a response holds the parsed body that [response.json()]
    returns, or the message of the [JSONDecodeError] it raises. *)

Record request : Type := {
  req_url : string;
  req_params : list (string * string);
  req_headers : list (string * string);
  req_timeout : Z
}.

Record response : Type := {
  status_code : Z;
  reason : string;
  url : string;
  text : string;
  json : pyval + string
}.

Inductive http_result : Type :=
| ConnectionFailed (msg : string)
| Responded (r : response).

(** [Response.raise_for_status] *)
Definition raise_for_status (r : response) : io unit :=
  let msg kind :=
    int_str (status_code r) ++ " " ++ kind ++ " Error: " ++ reason r
    ++ " for url: " ++ url r in
  if (400 <=? status_code r) && (status_code r <? 500)
  then raise (RequestException (msg "Client"))
  else if (500 <=? status_code r) && (status_code r <? 600)
  then raise (RequestException (msg "Server"))
  else ret tt.

(** [bool(response)] is [response.ok]: [raise_for_status] does not raise. *)
Definition response_ok (r : response) : bool :=
  negb ((400 <=? status_code r) && (status_code r <? 600)).

(** [response.json()]; its [JSONDecodeError] is a [RequestException]
    (requests 2.27 and later). *)
Definition response_json (r : response) : io pyval :=
  match json r with
  | inl v => ret v
  | inr msg => raise (RequestException msg)
  end.

Definition is_request_exception (e : exn) : bool :=
  match e with RequestException _ => true | _ => false end.

(** Reading a local variable that may not have been assigned yet. *)
Definition local {A : Type} (name : string) (v : option A) : outcome A :=
  match v with
  | Some a => Return a
  | None =>
      Raise (UnboundLocalError
               ("cannot access local variable '" ++ name
                ++ "' where it is not associated with a value"))
  end.

Definition opt_truthy (s : option string) : bool :=
  match s with
  | Some s => negb (String.eqb s "")
  | None => false
  end.

Definition opt_str (s : option string) : string :=
  match s with
  | Some s => s
  | None => ""
  end.

Inductive format_choice : Type := Simple | Minimal | Detailed | Json.

(** What [argparse] hands to [main]. *)
Record arguments : Type := {
  arg_coordinates : string;
  arg_format : format_choice
}.

Section WeatherPopup.
Context {U : Unicode}.
Variable net : request -> http_result.

(** *** weather_fetcher.py: class WeatherFetcher *)

Definition BASE_URL : string := "https://www.ilmateenistus.ee".

(** The headers [__init__] sets on the session. *)
Definition session_headers : list (string * string) :=
  [("User-Agent",
    "Mozilla/5.0 (Macintosh; Intel Mac OS X 10_15_7) AppleWebKit/537.36");
   ("Accept", "application/json, text/javascript, */*; q=0.01");
   ("Accept-Language", "et,en;q=0.9")].

(** [self.session.get(url, params=params, timeout=timeout)] *)
Definition session_get (url : string) (params : list (string * string))
  (timeout : Z) : http_result :=
  net {| req_url := url; req_params := params;
         req_headers := session_headers; req_timeout := timeout |}.

Definition search_location (query : string) : io pyval :=
  let url := BASE_URL ++ "/wp-json/emhi/locationAutocomplete" in
  let params := [("query", query)] in
  try_except
    (response <- match session_get url params 10 with
                 | Responded r => ret r
                 | ConnectionFailed msg => raise (RequestException msg)
                 end ;;
     raise_for_status response ;;
     data <- response_json response ;;
     print ("   Raw response type: <class '" ++ type_name data ++ "'>") ;;
     print ("   Raw response: " ++ str_slice_to 500 (json_dumps data)) ;;
     match data with
     | PDict items =>
         match dict_lookup "data" items with
         | Some d => ret (if is_list d then d else PList [data])
         | None => ret (PList [data])
         end
     | PList _ => ret data
     | _ => ret (PList [])
     end)
    is_request_exception
    (fun e =>
       print ("Error searching location: " ++ exn_str e) ;;
       ret (PList [])).

(** The handler of [get_forecast] reads the local [response], which is
    assigned only once [session.get] has returned. *)
Definition get_forecast_handler (response : option response) (e : exn)
  : io pyval :=
  print ("Error fetching forecast: " ++ exn_str e) ;;
  status <~ (let? r := local "response" response in
             Return (if response_ok r then int_str (status_code r)
                     else "N/A")) ;;
  print ("Response status: " ++ status) ;;
  body <~ (let? r := local "response" response in
           Return (if response_ok r then str_slice_to 500 (text r)
                   else "N/A")) ;;
  print ("Response text: " ++ body) ;;
  ret PNone.

Definition get_forecast (location_id coordinates : option string)
  (lang : string) : io pyval :=
  let url := BASE_URL ++ "/wp-content/themes/ilm2020/meteogram.php" in
  let params := [("lang", lang)] in
  let params := if opt_truthy location_id
                then (params ++ [("locationId", opt_str location_id)])%list
                else params in
  let params := if opt_truthy coordinates
                then (params ++ [("coordinates", opt_str coordinates)])%list
                else params in
  match session_get url params 10 with
  | ConnectionFailed msg => get_forecast_handler None (RequestException msg)
  | Responded response =>
      try_except
        (raise_for_status response ;; response_json response)
        is_request_exception
        (get_forecast_handler (Some response))
  end.

(** *** get_current_weather.py *)

Definition is_parse_error (e : exn) : bool :=
  match e with
  | KeyError _ | IndexError _ | TypeError _ => true
  | _ => false
  end.

(** The part of [get_current_conditions] after the fetch. *)
Definition extract_current_conditions (forecast : pyval) : io pyval :=
  if negb (truthy forecast) then ret PNone
  else
    try_except
      (times <~ subscripts forecast ["forecast"; "tabular"; "time"] ;;
       empty <~ (if negb (truthy times) then Return true
                 else let? n := py_len times in Return (n =? 0)) ;;
       if empty : bool then ret PNone
       else
         current <~ py_getitem times (IInt 0) ;;
         temp <~ subscripts current ["temperature"; "@attributes"; "value"] ;;
         weather <~ subscripts current ["phenomen"; "@attributes"; "et"] ;;
         weather_en <~ (let? a := subscripts current ["phenomen"; "@attributes"]
                        in py_get a "en" (PStr "")) ;;
         wind_speed <~ subscripts current ["windSpeed"; "@attributes"; "mps"] ;;
         wind_dir <~
           subscripts current ["windDirection"; "@attributes"; "name"] ;;
         precip <~ subscripts current ["precipitation"; "@attributes"; "value"] ;;
         time_from <~ subscripts current ["@attributes"; "from"] ;;
         temperature <~ py_float temp ;;
         wind <~ py_float wind_speed ;;
         precipitation <~ py_float precip ;;
         location <~ py_get forecast "location" (PStr "Unknown") ;;
         ret (PDict [("temperature", PFloat temperature);
                     ("weather", weather);
                     ("weather_en", weather_en);
                     ("wind_speed", PFloat wind);
                     ("wind_direction", wind_dir);
                     ("precipitation", PFloat precipitation);
                     ("forecast_time", time_from);
                     ("location", location)]))
      is_parse_error
      (fun e =>
         print_stderr ("Error parsing weather data: " ++ exn_str e) ;;
         ret PNone).

Definition get_current_conditions (coordinates : string) : io pyval :=
  forecast <- get_forecast None (Some coordinates) "et" ;;
  extract_current_conditions forecast.

Definition format_simple (conditions : pyval) : outcome string :=
  if negb (truthy conditions) then Return "Weather data unavailable"
  else
    let? temp := py_getitem conditions (IStr "temperature") in
    let? weather := py_getitem conditions (IStr "weather") in
    let? wind := py_getitem conditions (IStr "wind_speed") in
    let? t := py_format_f 1 temp in
    Return (t ++ "°C • " ++ py_str weather ++ " • Tuul " ++ py_str wind
            ++ " m/s").

Definition format_minimal (conditions : pyval) : outcome string :=
  if negb (truthy conditions) then Return "N/A"
  else
    let? temp := py_getitem conditions (IStr "temperature") in
    let? weather := py_getitem conditions (IStr "weather") in
    let? w := py_replace weather "pilvisus" "pilv" in
    let? weather_short := py_replace w "Vahelduv" "Vahel." in
    let? t := py_format_f 0 temp in
    Return (t ++ "° " ++ py_str weather_short).

Definition format_detailed (conditions : pyval) : outcome string :=
  if negb (truthy conditions) then Return "Weather data unavailable"
  else
    let? location := py_getitem conditions (IStr "location") in
    let? temperature := py_getitem conditions (IStr "temperature") in
    let? t := py_format_f 1 temperature in
    let? weather := py_getitem conditions (IStr "weather") in
    let? weather_en := py_getitem conditions (IStr "weather_en") in
    let? wind_speed := py_getitem conditions (IStr "wind_speed") in
    let? w := py_format_f 1 wind_speed in
    let? wind_direction := py_getitem conditions (IStr "wind_direction") in
    let? precipitation := py_getitem conditions (IStr "precipitation") in
    let? p := py_format_f 1 precipitation in
    let? forecast_time := py_getitem conditions (IStr "forecast_time") in
    Return (str_strip
              (LF ++ "Location: " ++ py_str location ++ LF
               ++ "Temperature: " ++ t ++ "°C" ++ LF
               ++ "Conditions: " ++ py_str weather
               ++ " (" ++ py_str weather_en ++ ")" ++ LF
               ++ "Wind: " ++ w ++ " m/s " ++ py_str wind_direction ++ LF
               ++ "Precipitation: " ++ p ++ " mm" ++ LF
               ++ "Forecast time: " ++ py_str forecast_time ++ LF)).

(** The [json] branch of [main]:
    [json.dumps(conditions, ensure_ascii=False, indent=2)]. *)
Definition format_json (conditions : pyval) : string := json_dumps conditions.

Definition main (args : arguments) : io unit :=
  conditions <- get_current_conditions (arg_coordinates args) ;;
  if negb (truthy conditions)
  then print_stderr "Failed to fetch weather data" ;; raise (SystemExit 1)
  else
    match arg_format args with
    | Simple => s <~ format_simple conditions ;; print s
    | Minimal => s <~ format_minimal conditions ;; print s
    | Detailed => s <~ format_detailed conditions ;; print s
    | Json => print (format_json conditions)
    end.

(** The exit status of the process that ran [main]: an uncaught exception
    other than [SystemExit] ends it with status 1. *)
Definition exit_status (run : io unit) : Z :=
  match snd run with
  | Return _ => 0
  | Raise (SystemExit status) => status
  | Raise _ => 1
  end.

End WeatherPopup.


(** *** weather_fetcher.py: format_forecast_simple

    The clock, the ISO 8601 parser of [datetime] and the order in which a
    [set] is iterated are left to the run time. *)

Class Runtime : Type := {
  (** [datetime.now().strftime('%Y-%m-%d %H:%M')] *)
  now_text : string;
  (** [datetime.fromisoformat(s).strftime('%H:%M')], or [None] when
      [fromisoformat] raises *)
  isoformat_hhmm : string -> option string;
  (** the order in which the set built by adding these values in turn is
      iterated *)
  set_iteration : list pyval -> list pyval
}.

(** [xs[start:stop]], a missing bound written [None]. *)
Definition seq_slice {A : Type} (start stop : option Z) (xs : list A)
  : list A :=
  let len := Z.of_nat (List.length xs) in
  let clip i := if i <? 0 then Z.max (len + i) 0 else Z.min i len in
  let lo := match start with Some i => clip i | None => 0 end in
  let hi := match stop with Some i => clip i | None => len end in
  firstn (Z.to_nat (hi - lo)) (skipn (Z.to_nat lo) xs).

(** [v[start:stop]] *)
Definition py_slice (v : pyval) (start stop : option Z) : outcome pyval :=
  match v with
  | PList xs => Return (PList (seq_slice start stop xs))
  | PStr s =>
      Return (PStr (String.concat "" (seq_slice start stop (utf8_chars s))))
  | PDict _ => Raise (TypeError "unhashable type: 'slice'")
  | _ =>
      Raise (TypeError ("'" ++ type_name v ++ "' object is not subscriptable"))
  end.

(** The values [for x in v] runs through. *)
Definition py_iter (v : pyval) : outcome (list pyval) :=
  match v with
  | PList xs => Return xs
  | PStr s => Return (map PStr (utf8_chars s))
  | PDict items => Return (map (fun kv => PStr (fst kv)) items)
  | _ => Raise (TypeError ("'" ++ type_name v ++ "' object is not iterable"))
  end.

(** [s.rjust(width)] *)
Definition rjust (width : nat) (s : string) : string :=
  repeat_str " " (width - List.length (utf8_chars s)) ++ s.

(** [format(v, '>width')], the f-string field [{v:>width}]. *)
Definition py_format_right (width : nat) (v : pyval) : outcome string :=
  match v with
  | PStr s => Return (rjust width s)
  | PInt n => Return (rjust width (int_str n))
  | PBool b => Return (rjust width (if b then "1" else "0"))
  | PFloat x => Return (rjust width (float_repr x))
  | _ =>
      Raise (TypeError ("unsupported format string passed to "
                        ++ type_name v ++ ".__format__"))
  end.

(** [sep.join(xs)]; [i] is the index of the first item. *)
Fixpoint py_join_from (i : Z) (sep : string) (xs : list pyval)
  : outcome string :=
  match xs with
  | [] => Return ""
  | x :: rest =>
      match x with
      | PStr s =>
          let? tail := py_join_from (i + 1) sep rest in
          Return (match rest with
                  | [] => s
                  | _ => s ++ sep ++ tail
                  end)
      | _ =>
          Raise (TypeError ("sequence item " ++ int_str i
                            ++ ": expected str instance, " ++ type_name x
                            ++ " found"))
      end
  end.

Definition py_join (sep : string) (xs : list pyval) : outcome string :=
  py_join_from 0 sep xs.

(** [min(xs)] and [max(xs)] of floats: the first item is kept until a later
    one compares below, or above, it. *)
Definition float_min (x : spec_float) (xs : list spec_float) : spec_float :=
  fold_left (fun cur item => if SFltb item cur then item else cur) xs x.

Definition float_max (x : spec_float) (xs : list spec_float) : spec_float :=
  fold_left (fun cur item => if SFltb cur item then item else cur) xs x.

(** [sum(xs)] of floats: additions from the left, starting at zero
    (CPython 3.11). *)
Definition float_sum (xs : list spec_float) : spec_float :=
  fold_left (SFadd prec emax) xs (S754_zero false).

Definition is_str (v : pyval) : bool :=
  match v with PStr _ => true | _ => false end.

Definition same_str (x y : pyval) : bool :=
  match x, y with
  | PStr a, PStr b => String.eqb a b
  | _, _ => false
  end.

(** What the summary of [format_forecast_simple] collects: [temps],
    [precips], and the values added to the set [phenomena], in the order of
    the calls of [add]. *)
Record tally : Type := {
  temps : list spec_float;
  precips : list spec_float;
  phenomena : list pyval
}.

Definition empty_tally : tally :=
  {| temps := []; precips := []; phenomena := [] |}.

Fixpoint fold_outcome {A B : Type} (f : A -> B -> outcome A) (xs : list B)
  (acc : A) : outcome A :=
  match xs with
  | [] => Return acc
  | x :: rest => let? acc' := f acc x in fold_outcome f rest acc'
  end.

Section ForecastTable.
Context {U : Unicode} {R : Runtime}.

(** The elements of the set the values [added] were added to, as a loop
    over it meets them: the run time decides as soon as two of them
    differ. *)
Definition set_elements (added : list pyval) : list pyval :=
  match added with
  | [] => []
  | x :: rest => if forallb (same_str x) rest then [x] else set_iteration added
  end.

(** [time_data.get(element, {}).get('@attributes', {}).get(attribute,
    default)] *)
Definition attribute_of (time_data : pyval) (element attribute : string)
  (default : pyval) : outcome pyval :=
  let? el := py_get time_data element (PDict []) in
  let? attrs := py_get el "@attributes" (PDict []) in
  py_get attrs attribute default.

(** The time column: hours and minutes of an ISO 8601 time, else the five
    characters before the last three of a long value, else the value. *)
Definition time_column (time_from : pyval) : outcome pyval :=
  match match time_from with
        | PStr s => isoformat_hhmm s
        | _ => None
        end with
  | Some hhmm => Return (PStr hhmm)
  | None =>
      let? n := py_len time_from in
      if 8 <? n then py_slice time_from (Some (-8)) (Some (-3))
      else Return time_from
  end.

Definition rule (c : string) : string := repeat_str c 80.

Definition table_header : string :=
  LF ++ rjust 5 "Time" ++ " | " ++ rjust 5 "Temp" ++ " | " ++ rjust 12 "Wind"
  ++ " | " ++ rjust 6 "Precip" ++ " | " ++ rjust 20 "Weather".

(** The body of the first loop, for an entry that is a [dict]. *)
Definition forecast_row (time_data : pyval) : outcome string :=
  let? attrs := py_get time_data "@attributes" (PDict []) in
  let? time_from := py_get attrs "from" (PStr "") in
  let? time_str := time_column time_from in
  let? temp := attribute_of time_data "temperature" "value" (PStr "N/A") in
  let temp_str := if same_str temp (PStr "N/A") then "N/A"
                  else py_str temp ++ "°C" in
  let? wind_speed := attribute_of time_data "windSpeed" "mps" (PStr "N/A") in
  let? wind_dir_data :=
    (let? el := py_get time_data "windDirection" (PDict []) in
     py_get el "@attributes" (PDict [])) in
  let? wind_dir := py_get wind_dir_data "name" (PStr "N/A") in
  let? wind_deg := py_get wind_dir_data "deg" (PStr "") in
  let wind_str := py_str wind_speed ++ " m/s " ++ py_str wind_dir in
  let? precip := attribute_of time_data "precipitation" "value" (PStr "0") in
  let precip_str := py_str precip ++ " mm" in
  let? weather := attribute_of time_data "phenomen" "et" (PStr "N/A") in
  let? time_cell := py_format_right 5 time_str in
  let? weather_cell := py_format_right 20 weather in
  Return (time_cell ++ " | " ++ rjust 5 temp_str ++ " | " ++ rjust 12 wind_str
          ++ " | " ++ rjust 6 precip_str ++ " | " ++ weather_cell).

(** The first loop: one row for each entry that is a [dict]. *)
Fixpoint table_rows (entries : list pyval) : outcome (list string) :=
  match entries with
  | [] => Return []
  | time_data :: rest =>
      if is_dict time_data
      then let? row := forecast_row time_data in
           let? rows := table_rows rest in
           Return (row :: rows)
      else table_rows rest
  end.

(** The body of the second loop. *)
Definition tally_entry (acc : tally) (time_data : pyval) : outcome tally :=
  if is_dict time_data then
    let? temp_val := attribute_of time_data "temperature" "value" PNone in
    let? temps' :=
      (if truthy temp_val
       then let? x := py_float temp_val in Return (temps acc ++ [x])%list
       else Return (temps acc)) in
    let? precip_val := attribute_of time_data "precipitation" "value" PNone in
    let? precips' :=
      (if truthy precip_val
       then let? x := py_float precip_val in Return (precips acc ++ [x])%list
       else Return (precips acc)) in
    let? phenom := attribute_of time_data "phenomen" "et" PNone in
    let? phenomena' :=
      (if truthy phenom
       then if is_list phenom || is_dict phenom
            then Raise (TypeError ("unhashable type: '" ++ type_name phenom
                                   ++ "'"))
            else Return (phenomena acc ++ [phenom])%list
       else Return (phenomena acc)) in
    Return {| temps := temps'; precips := precips'; phenomena := phenomena' |}
  else Return acc.

(** The summary of the first three entries. *)
Definition summary_lines (times : pyval) : outcome (list string) :=
  let? first := py_slice times None (Some 3) in
  let? entries := py_iter first in
  let? t := fold_outcome tally_entry entries empty_tally in
  let temperature :=
    match temps t with
    | x :: xs => ["Temperature: " ++ format_f 1 (float_min x xs) ++ "°C - "
                  ++ format_f 1 (float_max x xs) ++ "°C"]
    | [] => []
    end in
  let precipitation :=
    match precips t with
    | [] => []
    | ps => ["Total precipitation: " ++ format_f 1 (float_sum ps) ++ " mm"]
    end in
  let? conditions :=
    match phenomena t with
    | [] => Return []
    | added => let? labels := py_join ", " (set_elements added) in
               Return ["Conditions: " ++ labels]
    end in
  Return (temperature ++ precipitation ++ conditions)%list.

Definition report_head (location : pyval) : list string :=
  [rule "="; "Weather Forecast - " ++ now_text;
   "Location: " ++ py_str location; rule "="].

Definition summary_head : list string :=
  [LF ++ rule "="; "NEXT 3 HOURS SUMMARY:"; rule "-"].

Definition format_forecast_simple (forecast_data : pyval) (hours : Z)
  : outcome string :=
  if negb (truthy forecast_data) then Return "No forecast data available"
  else
    let? location := py_get forecast_data "location" (PStr "Unknown location")
    in
    let? forecast := py_get forecast_data "forecast" (PDict []) in
    let? tabular := py_get forecast "tabular" (PDict []) in
    let? times := py_get tabular "time" (PList []) in
    if negb (truthy times)
    then Return (String.concat LF
                   (report_head location
                    ++ [LF ++ "No forecast data available"]))
    else
      let? shown := py_slice times None (Some hours) in
      let? entries := py_iter shown in
      let? rows := table_rows entries in
      let? n := py_len times in
      let? summary := (if 3 <=? n then summary_lines times else Return []) in
      Return (String.concat LF
                (report_head location ++ [table_header; rule "-"] ++ rows
                 ++ summary_head ++ summary)).

End ForecastTable.

(** ** Vocabulary of the specification *)

(** The value at a path of keys through nested objects, when every step is
    an object that has the key. *)
Fixpoint path (v : pyval) (keys : list string) : option pyval :=
  match keys with
  | [] => Some v
  | k :: rest =>
      match v with
      | PDict items =>
          match dict_lookup k items with
          | Some x => path x rest
          | None => None
          end
      | _ => None
      end
  end.

Definition time_path : list string := ["forecast"; "tabular"; "time"].

(** The attributes of a TimeEntry that the extraction requires. *)
Definition temperature_path : list string :=
  ["temperature"; "@attributes"; "value"].
Definition weather_path : list string := ["phenomen"; "@attributes"; "et"].
Definition weather_en_path : list string := ["phenomen"; "@attributes"; "en"].
Definition wind_speed_path : list string := ["windSpeed"; "@attributes"; "mps"].
Definition wind_direction_path : list string :=
  ["windDirection"; "@attributes"; "name"].
Definition precipitation_path : list string :=
  ["precipitation"; "@attributes"; "value"].
Definition forecast_time_path : list string := ["@attributes"; "from"].

Definition required_fields : list (list string) :=
  [temperature_path; weather_path; wind_speed_path; wind_direction_path;
   precipitation_path; forecast_time_path].

Definition or_default (o : option pyval) (default : pyval) : pyval :=
  match o with
  | Some v => v
  | None => default
  end.

(** The record [get_current_conditions] builds. *)
Definition conditions_record (temperature : spec_float)
  (weather weather_en : pyval) (wind_speed : spec_float) (wind_direction : pyval)
  (precipitation : spec_float) (forecast_time location : pyval) : pyval :=
  PDict [("temperature", PFloat temperature);
         ("weather", weather);
         ("weather_en", weather_en);
         ("wind_speed", PFloat wind_speed);
         ("wind_direction", wind_direction);
         ("precipitation", PFloat precipitation);
         ("forecast_time", forecast_time);
         ("location", location)].

(** The float a decimal literal of the Python source denotes. *)
Definition float_lit (s : string) : spec_float :=
  match float_of_ascii s with
  | Some x => x
  | None => S754_nan
  end.


(** The lines the program writes. *)
Definition parse_diagnostic {U : Unicode} (e : exn) : event :=
  Stderr ("Error parsing weather data: " ++ exn_str e).

Definition failure_report : event := Stderr "Failed to fetch weather data".


(** What reading the unassigned local [response] raises. *)
Definition unbound_response : exn :=
  UnboundLocalError
    "cannot access local variable 'response' where it is not associated with a value".

(** ** Sample data *)

(** A stand-in for the Unicode database: the samples below hold ASCII text
    wherever [repr] or [float] would consult it. *)
Definition ascii_only : Unicode :=
  {| repr_nonascii := fun s => s; decimal_and_space_to_ascii := fun s => s |}.

Definition attributes (items : list (string * pyval)) : pyval :=
  PDict [("@attributes", PDict items)].

Definition sample_entry (temperature weather : pyval) : pyval :=
  PDict [("@attributes",
          PDict [("from", PStr "2025-01-15T14:00:00+02:00");
                 ("to", PStr "2025-01-15T15:00:00+02:00")]);
         ("phenomen",
          attributes [("className", PStr "variable_clouds");
                      ("et", weather);
                      ("en", PStr "Variable clouds")]);
         ("windDirection", attributes [("deg", PStr "315"); ("name", PStr "NW")]);
         ("windSpeed", attributes [("mps", PStr "4.2")]);
         ("temperature", attributes [("value", temperature)]);
         ("precipitation", attributes [("value", PStr "0.3")])].

Definition sample_first_entry : pyval :=
  sample_entry (PStr "3.456") (PStr "Vahelduv pilvisus").

Definition forecast_of (times : pyval) : list (string * pyval) :=
  [("forecast", PDict [("tabular", PDict [("time", times)])])].

Definition sample_forecast : pyval :=
  PDict (("location", PStr "Toomja")
         :: forecast_of
              (PList [sample_entry (PStr "3.456") (PStr "Vahelduv pilvisus")])).

(** The same, without the location label. *)
Definition sample_forecast_unnamed : pyval :=
  PDict (forecast_of
           (PList [sample_entry (PStr "3.456") (PStr "Vahelduv pilvisus")])).

Definition sample_forecast_empty : pyval := PDict (forecast_of (PList [])).

Definition sample_forecast_no_time : pyval :=
  PDict [("forecast", PDict [("tabular", PDict [])])].

(** The first entry has no precipitation. *)
Definition sample_forecast_no_precipitation : pyval :=
  PDict (forecast_of
           (PList [PDict [("@attributes", PDict [("from", PStr "14:00")]);
                          ("phenomen", attributes [("et", PStr "Selge")]);
                          ("windDirection", attributes [("name", PStr "N")]);
                          ("windSpeed", attributes [("mps", PStr "1.0")]);
                          ("temperature", attributes [("value", PStr "2")])]])).

(** The temperature is no number. *)
Definition sample_forecast_bad_number : pyval :=
  PDict (forecast_of
           (PList [sample_entry (PStr "abc") (PStr "Vahelduv pilvisus")])).

(** The weather label is a number. *)
Definition sample_forecast_bad_label : pyval :=
  PDict (forecast_of (PList [sample_entry (PStr "3.456") (PInt 5)])).

(** A world that answers every request with status 200 and the body [v]. *)
Definition answering (v : pyval) : request -> http_result :=
  fun req =>
    Responded {| status_code := 200; reason := "OK"; url := req_url req;
                 text := json_dumps v; json := inl v |}.

(** A world that answers every request with a status and no JSON body. *)
Definition refusing (status : Z) (why : string) : request -> http_result :=
  fun req =>
    Responded {| status_code := status; reason := why; url := req_url req;
                 text := why;
                 json := inr "Expecting value: line 1 column 1 (char 0)" |}.

(** A world in which no connection can be made. *)
Definition unreachable : request -> http_result :=
  fun _ => ConnectionFailed "Connection refused".

Definition default_coordinates : string := "59.0218292;25.0982156".

(** ** Further vocabulary and samples *)


(** A fetch fails when no connection is made, the status is an error, or
    the body is no JSON. *)
Definition fetch_failed (res : http_result) : bool :=
  match res with
  | ConnectionFailed _ => true
  | Responded r =>
      negb (response_ok r)
      || match json r with inl _ => false | inr _ => true end
  end.

(** [pat] occurs in [s]. *)
Fixpoint occurs (pat s : string) : bool :=
  match s with
  | "" => String.prefix pat ""
  | String _ s' => String.prefix pat s || occurs pat s'
  end.

(** The temperature is an integer beyond the range of a float. *)
Definition sample_forecast_huge_number : pyval :=
  PDict (forecast_of
           (PList [sample_entry (PInt (10 ^ 400)) (PStr "Vahelduv pilvisus")])).

(** The provider gives the only entry as an object, not as a list of one. *)
Definition sample_forecast_single : pyval :=
  PDict (forecast_of sample_first_entry).

(** The path ends at a key that an object on the way does not have. *)
Fixpoint absent (v : pyval) (keys : list string) : bool :=
  match keys with
  | [] => false
  | k :: rest =>
      match v with
      | PDict items =>
          match dict_lookup k items with
          | Some x => absent x rest
          | None => true
          end
      | _ => false
      end
  end.

Definition is_text (o : option pyval) : bool :=
  match o with
  | Some (PStr _) => true
  | _ => false
  end.

Definition is_number_text {U : Unicode} (o : option pyval) : bool :=
  match o with
  | Some (PStr s) =>
      match float_of_str s with
      | Some _ => true
      | None => false
      end
  | _ => false
  end.

(** An entry that has every attribute the reports read, each a string, with
    numerals for the temperature and the precipitation. *)
Definition complete_entry {U : Unicode} (entry : pyval) : bool :=
  forallb (fun field => is_text (path entry field)) required_fields
  && is_number_text (path entry temperature_path)
  && is_number_text (path entry precipitation_path).

(** The location line of the report. *)
Definition location_of (forecast_data : pyval) : pyval :=
  or_default (path forecast_data ["location"]) (PStr "Unknown location").

(** A run time for the samples: the clock stands still, a time is read
    from an ISO 8601 text of date, [T] and time, and a set is iterated in
    the order of its first insertions. *)
Definition sample_runtime : Runtime :=
  {| now_text := "2025-01-15 13:37";
     isoformat_hhmm :=
       fun s => if (19 <=? str_len s) && String.eqb (String.substring 10 1 s) "T"
                then Some (String.substring 11 5 s) else None;
     set_iteration :=
       fun added =>
         fold_left (fun seen v => if existsb (same_str v) seen then seen
                                  else (seen ++ [v])%list) added [] |}.

Definition sample_later_entry : pyval :=
  PDict [("@attributes", PDict [("from", PStr "2025-01-15T15:00:00+02:00")]);
         ("phenomen", attributes [("et", PStr "Selge")]);
         ("windDirection", attributes [("name", PStr "N")]);
         ("windSpeed", attributes [("mps", PStr "1.0")]);
         ("temperature", attributes [("value", PStr "-1.5")]);
         ("precipitation", attributes [("value", PStr "0")])].

Definition sample_forecast_three : pyval :=
  PDict (("location", PStr "Toomja")
         :: forecast_of (PList [sample_first_entry; sample_later_entry;
                                sample_later_entry])).

(** Three entries, the second with a temperature that is no number. *)
Definition sample_forecast_three_bad : pyval :=
  PDict (forecast_of
           (PList [sample_first_entry;
                   sample_entry (PStr "abc") (PStr "Selge");
                   sample_later_entry])).

(** The forecast is a list, not an object. *)
Definition sample_forecast_list : pyval :=
  PDict [("forecast", PList [PInt 1])].

(** Strings only. *)
Definition texts (xs : list pyval) : Prop :=
  Forall (fun v => is_str v = true) xs.

(** A network that gives the same answer to every request. *)
Definition always (r : response) : request -> http_result :=
  fun _ => Responded r.

Definition sample_answer (body : pyval) : response :=
  {| status_code := 200; reason := "OK";
     url := "https://www.ilmateenistus.ee/wp-content/themes/ilm2020/meteogram.php";
     text := json_dumps body; json := inl body |}.

Definition sample_not_found : response :=
  {| status_code := 404; reason := "Not Found";
     url := "https://www.ilmateenistus.ee/wp-content/themes/ilm2020/meteogram.php";
     text := "Not Found";
     json := inr "Expecting value: line 1 column 1 (char 0)" |}.


(** ** Properties *)

Section Properties.
Context {U : Unicode}.
Variable net : request -> http_result.

(** *** The monad *)

Lemma bind_lift_return {A B : Type} (a : A) (k : A -> io B) :
  bind (lift (Return a)) k = k a.
Proof.
  unfold bind, lift. destruct (k a) as [out r]. reflexivity.
Qed.

Lemma bind_lift_raise {A B : Type} (e : exn) (k : A -> io B) :
  bind (lift (Raise e)) k = ([], Raise e).
Proof. reflexivity. Qed.

Lemma bind_return_inv {A B : Type} (m : io A) (k : A -> io B)
  (out : list event) (b : B) :
  bind m k = (out, Return b) ->
  exists out1 out2 a,
    m = (out1, Return a) /\ k a = (out2, Return b) /\ out = (out1 ++ out2)%list.
Proof.
  unfold bind. destruct m as [out1 [a | e]]; [ | discriminate ].
  destruct (k a) as [out2 r] eqn:Hk. intros H. inversion H; subst.
  exists out1, out2, a. auto.
Qed.

Lemma bind_prepend {A B : Type} (m : io A) (k : A -> io B)
  (out1 out2 : list event) (a : A) (r : outcome B) :
  m = (out1, Return a) -> k a = (out2, r) ->
  bind m k = ((out1 ++ out2)%list, r).
Proof. intros -> Hk. unfold bind. rewrite Hk. reflexivity. Qed.

(** *** Paths and subscripts *)

Lemma path_subscripts (keys : list string) :
  forall v x, path v keys = Some x -> subscripts v keys = Return x.
Proof.
  induction keys as [ | k rest IH]; intros v x H; simpl in *.
  - congruence.
  - destruct v; try discriminate.
    destruct (dict_lookup k items) as [y | ] eqn:Hk; [ | discriminate ].
    simpl. rewrite Hk. simpl. auto.
Qed.

Lemma getitem_str_error (v : pyval) (k : string) (e : exn) :
  py_getitem v (IStr k) = Raise e -> is_parse_error e = true.
Proof.
  destruct v; simpl; try (intros H; inversion H; reflexivity).
  destruct (dict_lookup k items); intros H; inversion H; reflexivity.
Qed.

Lemma subscripts_error (keys : list string) :
  forall v e, subscripts v keys = Raise e -> is_parse_error e = true.
Proof.
  induction keys as [ | k rest IH]; intros v e H; simpl in *.
  - discriminate.
  - destruct (py_getitem v (IStr k)) as [x | e'] eqn:Hg; simpl in H.
    + eauto.
    + inversion H; subst. eauto using getitem_str_error.
Qed.

Lemma path_missing (keys : list string) :
  forall v, path v keys = None ->
  exists e, subscripts v keys = Raise e /\ is_parse_error e = true.
Proof.
  induction keys as [ | k rest IH]; intros v H; simpl in *.
  - discriminate.
  - destruct (py_getitem v (IStr k)) as [x | e] eqn:Hg; simpl.
    + destruct v; simpl in Hg; try discriminate.
      destruct (dict_lookup k items) as [y | ]; [ | discriminate ].
      inversion Hg; subst. auto.
    + exists e. eauto using getitem_str_error.
Qed.

Lemma path_app (keys1 keys2 : list string) :
  forall v, path v (keys1 ++ keys2)
            = match path v keys1 with
              | Some x => path x keys2
              | None => None
              end.
Proof.
  induction keys1 as [ | k rest IH]; intros v; simpl.
  - reflexivity.
  - destruct v; try reflexivity.
    destruct (dict_lookup k items); auto.
Qed.

Lemma path_truthy (k : string) (rest : list string) (v x : pyval) :
  path v (k :: rest) = Some x -> truthy v = true.
Proof.
  simpl. destruct v; try discriminate.
  destruct items; [ discriminate | reflexivity ].
Qed.


(** *** Extraction *)

Lemma get_or_default (items : list (string * pyval)) (k : string)
  (default : pyval) :
  py_get (PDict items) k default
  = Return (or_default (path (PDict items) [k]) default).
Proof.
  simpl. destruct (dict_lookup k items); reflexivity.
Qed.

Lemma first_of_nonempty (entry : pyval) (rest : list pyval) :
  py_getitem (PList (entry :: rest)) (IInt 0) = Return entry.
Proof. reflexivity. Qed.

Lemma nonempty_not_empty (entry : pyval) (rest : list pyval) :
  (if negb (truthy (PList (entry :: rest))) then Return true
   else let? n := py_len (PList (entry :: rest)) in Return (n =? 0))
  = Return false.
Proof.
  simpl. destruct (Z.eqb_spec (Z.pos (Pos.of_succ_nat (List.length rest))) 0);
    [ lia | reflexivity ].
Qed.

Lemma weather_en_lookup (entry weather : pyval) :
  path entry ["phenomen"; "@attributes"; "et"] = Some weather ->
  (let? a := subscripts entry ["phenomen"; "@attributes"] in
   py_get a "en" (PStr ""))
  = Return (or_default (path entry weather_en_path) (PStr "")).
Proof.
  intros Hw.
  change (path entry (["phenomen"; "@attributes"] ++ ["et"]) = Some weather)
    in Hw.
  change weather_en_path with (["phenomen"; "@attributes"] ++ ["en"])%list.
  rewrite path_app in Hw. rewrite path_app.
  destruct (path entry ["phenomen"; "@attributes"]) as [a | ] eqn:Ha;
    [ | discriminate ].
  rewrite (path_subscripts _ _ _ Ha). cbn [obind].
  destruct a; try discriminate. apply get_or_default.
Qed.

(** A first entry that has every required attribute, with numbers where
    numbers are expected, is projected field by field. *)
Lemma extract_well_formed (forecast entry : pyval) (rest : list pyval)
  (temp weather wind_speed wind_dir precip time_from : pyval)
  (t w p : spec_float) :
  path forecast time_path = Some (PList (entry :: rest)) ->
  path entry temperature_path = Some temp ->
  path entry weather_path = Some weather ->
  path entry wind_speed_path = Some wind_speed ->
  path entry wind_direction_path = Some wind_dir ->
  path entry precipitation_path = Some precip ->
  path entry forecast_time_path = Some time_from ->
  py_float temp = Return t ->
  py_float wind_speed = Return w ->
  py_float precip = Return p ->
  extract_current_conditions forecast
  = ([], Return (conditions_record t weather
                   (or_default (path entry weather_en_path) (PStr ""))
                   w wind_dir p time_from
                   (or_default (path forecast ["location"]) (PStr "Unknown")))).
Proof.
  intros Htimes Ht Hw Hws Hwd Hp Hf Hft Hfw Hfp.
  unfold extract_current_conditions.
  unfold time_path, temperature_path, wind_speed_path, wind_direction_path,
    precipitation_path, forecast_time_path in *.
  rewrite (path_truthy _ _ _ _ Htimes). cbn [negb].
  rewrite (path_subscripts _ _ _ Htimes), bind_lift_return.
  rewrite nonempty_not_empty, bind_lift_return.
  rewrite first_of_nonempty, bind_lift_return.
  rewrite (path_subscripts _ _ _ Ht), bind_lift_return.
  rewrite (path_subscripts _ _ _ Hw : subscripts _ [_; _; _] = _),
    bind_lift_return.
  rewrite (weather_en_lookup _ _ Hw), bind_lift_return.
  rewrite (path_subscripts _ _ _ Hws), bind_lift_return.
  rewrite (path_subscripts _ _ _ Hwd), bind_lift_return.
  rewrite (path_subscripts _ _ _ Hp), bind_lift_return.
  rewrite (path_subscripts _ _ _ Hf), bind_lift_return.
  rewrite Hft, bind_lift_return, Hfw, bind_lift_return, Hfp, bind_lift_return.
  destruct forecast; try discriminate.
  rewrite get_or_default, bind_lift_return.
  reflexivity.
Qed.


Lemma subscripts_path (keys : list string) :
  forall v x, subscripts v keys = Return x -> path v keys = Some x.
Proof.
  induction keys as [ | k rest IH]; intros v x H; simpl in *.
  - congruence.
  - destruct v; simpl in H; try discriminate.
    destruct (dict_lookup k items); simpl in H; [ auto | discriminate ].
Qed.

(** Runs through the subscripts of the first entry, in the order of the
    source: a subscript that returns leaves its path as a hypothesis, one
    that raises is handed to [on_raise]. *)
Ltac walk_entry entry on_raise :=
  repeat
    match goal with
    | |- context [bind (lift (subscripts entry ?ks)) _] =>
        let H := fresh "H" in
        let e := fresh "e" in
        destruct (subscripts entry ks) as [? | e] eqn:H;
        [ rewrite bind_lift_return; apply subscripts_path in H
        | on_raise e H ]
    | Hw : path entry ["phenomen"; "@attributes"; "et"] = Some _ |- _ =>
        rewrite (weather_en_lookup _ _ Hw), bind_lift_return
    end.

Lemma parse_error_caught {A : Type} (e : exn) (k : A -> io pyval) :
  is_parse_error e = true ->
  try_except (bind (lift (Raise e)) k) is_parse_error
    (fun e => print_stderr ("Error parsing weather data: " ++ exn_str e) ;;
              ret PNone)
  = ([parse_diagnostic e], Return PNone).
Proof.
  intros H. rewrite bind_lift_raise. unfold try_except. rewrite H.
  reflexivity.
Qed.

Lemma extract_empty (forecast : pyval) :
  path forecast time_path = Some (PList []) ->
  extract_current_conditions forecast = ([], Return PNone).
Proof.
  intros H. unfold extract_current_conditions, time_path in *.
  rewrite (path_truthy _ _ _ _ H). cbn [negb].
  rewrite (path_subscripts _ _ _ H), bind_lift_return.
  reflexivity.
Qed.

Lemma extract_missing_path (forecast : pyval) :
  path forecast time_path = None ->
  extract_current_conditions forecast = ([], Return PNone)
  \/ exists e, is_parse_error e = true
               /\ extract_current_conditions forecast
                  = ([parse_diagnostic e], Return PNone).
Proof.
  intros H. unfold extract_current_conditions, time_path in *.
  destruct (truthy forecast); cbn [negb]; [ right | left; reflexivity ].
  destruct (path_missing _ _ H) as (e & He & Hc).
  exists e. split; [ assumption | ].
  rewrite He. apply parse_error_caught, Hc.
Qed.

Lemma extract_missing_field (forecast entry : pyval) (rest : list pyval)
  (field : list string) :
  path forecast time_path = Some (PList (entry :: rest)) ->
  In field required_fields ->
  path entry field = None ->
  exists e, is_parse_error e = true
            /\ extract_current_conditions forecast
               = ([parse_diagnostic e], Return PNone).
Proof.
  intros Htimes Hin Hmiss.
  unfold extract_current_conditions.
  unfold required_fields, time_path, temperature_path, weather_path,
    wind_speed_path, wind_direction_path, precipitation_path,
    forecast_time_path in *.
  rewrite (path_truthy _ _ _ _ Htimes). cbn [negb].
  rewrite (path_subscripts _ _ _ Htimes), bind_lift_return.
  rewrite nonempty_not_empty, bind_lift_return.
  rewrite first_of_nonempty, bind_lift_return.
  walk_entry entry
    ltac:(fun e H =>
            exists e; split;
            [ apply (subscripts_error _ _ _ H)
            | apply parse_error_caught, (subscripts_error _ _ _ H) ]).
  simpl in Hin; intuition (subst; congruence).
Qed.


Lemma conditions_after_fetch (coordinates : string) (out1 out2 : list event)
  (forecast : pyval) (r : outcome pyval) :
  get_forecast net None (Some coordinates) "et" = (out1, Return forecast) ->
  extract_current_conditions forecast = (out2, r) ->
  get_current_conditions net coordinates = ((out1 ++ out2)%list, r).
Proof. intros Hf He. unfold get_current_conditions. eauto using bind_prepend. Qed.

(** C1: when the fetch returns a response whose [forecast.tabular.time]
    sequence is not empty and whose first entry carries every required
    attribute, with strings that [float] accepts for temperature, wind
    speed and precipitation, [get_current_conditions] returns the record
    whose [temperature], [wind_speed] and [precipitation] are the float
    conversions of those strings, and whose [weather], [weather_en]
    (the empty string when the entry has no English label),
    [wind_direction] and [forecast_time] are the attribute values of the
    first entry, unchanged. *)
Theorem extraction_matches_first_entry
  (coordinates : string) (out : list event) (forecast entry : pyval)
  (rest : list pyval) (temp wind_speed precip : string)
  (weather wind_dir time_from : pyval) (t w p : spec_float) :
  get_forecast net None (Some coordinates) "et" = (out, Return forecast) ->
  path forecast time_path = Some (PList (entry :: rest)) ->
  path entry temperature_path = Some (PStr temp) ->
  path entry weather_path = Some weather ->
  path entry wind_speed_path = Some (PStr wind_speed) ->
  path entry wind_direction_path = Some wind_dir ->
  path entry precipitation_path = Some (PStr precip) ->
  path entry forecast_time_path = Some time_from ->
  float_of_str temp = Some t ->
  float_of_str wind_speed = Some w ->
  float_of_str precip = Some p ->
  get_current_conditions net coordinates
  = (out, Return (conditions_record t weather
                    (or_default (path entry weather_en_path) (PStr ""))
                    w wind_dir p time_from
                    (or_default (path forecast ["location"])
                       (PStr "Unknown")))).
Proof.
  intros Hfetch Htimes Ht Hw Hws Hwd Hp Hf Hft Hfw Hfp.
  rewrite <- (app_nil_r out).
  apply (conditions_after_fetch _ _ _ _ _ Hfetch).
  apply (extract_well_formed _ _ _ _ _ _ _ _ _ _ _ _
           Htimes Ht Hw Hws Hwd Hp Hf); simpl;
    [ rewrite Hft | rewrite Hfw | rewrite Hfp ]; reflexivity.
Qed.

(** C2: when the fetch returns a response whose [forecast.tabular.time]
    sequence is empty, or that has no [forecast.tabular.time] path, or whose
    first entry lacks a required attribute (or an object on the way to it),
    [get_current_conditions] returns [None] and does not raise; in the
    missing-attribute case it writes one diagnostic line to standard
    error. *)
Theorem extraction_fails_softly
  (coordinates : string) (out : list event) (forecast : pyval) :
  get_forecast net None (Some coordinates) "et" = (out, Return forecast) ->
  (path forecast time_path = Some (PList []) ->
   get_current_conditions net coordinates = (out, Return PNone))
  /\ (path forecast time_path = None ->
      exists diag,
        get_current_conditions net coordinates
        = ((out ++ diag)%list, Return PNone)
        /\ (diag = [] \/ exists e, diag = [parse_diagnostic e]))
  /\ (forall (entry : pyval) (rest : list pyval) (field : list string),
        path forecast time_path = Some (PList (entry :: rest)) ->
        In field required_fields ->
        path entry field = None ->
        exists e,
          is_parse_error e = true
          /\ get_current_conditions net coordinates
             = ((out ++ [parse_diagnostic e])%list, Return PNone)).
Proof.
  intros Hfetch. repeat split.
  - intros H. rewrite <- (app_nil_r out).
    eauto using conditions_after_fetch, extract_empty.
  - intros H. destruct (extract_missing_path _ H) as [He | (e & _ & He)].
    + exists []. eauto using conditions_after_fetch.
    + exists [parse_diagnostic e]. eauto using conditions_after_fetch.
  - intros entry rest field Htimes Hin Hmiss.
    destruct (extract_missing_field _ _ _ _ Htimes Hin Hmiss) as (e & Hc & He).
    exists e. eauto using conditions_after_fetch.
Qed.

(** C10: when the fetch returns a response whose first entry is well formed
    and that has no [location] key, [get_current_conditions] still returns a
    record, and its [location] is the string [Unknown]. *)
Theorem missing_location_is_unknown
  (coordinates : string) (out : list event) (forecast entry : pyval)
  (rest : list pyval) (temp wind_speed precip : string)
  (weather wind_dir time_from : pyval) (t w p : spec_float) :
  get_forecast net None (Some coordinates) "et" = (out, Return forecast) ->
  path forecast ["location"] = None ->
  path forecast time_path = Some (PList (entry :: rest)) ->
  path entry temperature_path = Some (PStr temp) ->
  path entry weather_path = Some weather ->
  path entry wind_speed_path = Some (PStr wind_speed) ->
  path entry wind_direction_path = Some wind_dir ->
  path entry precipitation_path = Some (PStr precip) ->
  path entry forecast_time_path = Some time_from ->
  float_of_str temp = Some t ->
  float_of_str wind_speed = Some w ->
  float_of_str precip = Some p ->
  get_current_conditions net coordinates
  = (out, Return (conditions_record t weather
                    (or_default (path entry weather_en_path) (PStr ""))
                    w wind_dir p time_from (PStr "Unknown"))).
Proof.
  intros Hfetch Hloc Htimes Ht Hw Hws Hwd Hp Hf Hft Hfw Hfp.
  rewrite <- (app_nil_r out).
  apply (conditions_after_fetch _ _ _ _ _ Hfetch).
  replace (PStr "Unknown")
    with (or_default (path forecast ["location"]) (PStr "Unknown"))
    by (rewrite Hloc; reflexivity).
  apply (extract_well_formed _ _ _ _ _ _ _ _ _ _ _ _
           Htimes Ht Hw Hws Hwd Hp Hf); simpl;
    [ rewrite Hft | rewrite Hfw | rewrite Hfp ]; reflexivity.
Qed.


(** *** The fetch *)

Lemma status_ok (r : response) :
  response_ok r = true -> raise_for_status r = ret tt.
Proof.
  unfold response_ok, raise_for_status.
  destruct (Z.leb_spec 400 (status_code r)), (Z.ltb_spec (status_code r) 500),
    (Z.leb_spec 500 (status_code r)), (Z.ltb_spec (status_code r) 600);
    simpl; intros; (reflexivity || discriminate || lia).
Qed.

Lemma status_error (r : response) :
  response_ok r = false ->
  exists msg, raise_for_status r = raise (RequestException msg).
Proof.
  unfold response_ok, raise_for_status.
  destruct (Z.leb_spec 400 (status_code r)), (Z.ltb_spec (status_code r) 500),
    (Z.leb_spec 500 (status_code r)), (Z.ltb_spec (status_code r) 600);
    simpl; intros; try discriminate; try lia; eexists; reflexivity.
Qed.

Lemma handler_unbound (e : exn) :
  get_forecast_handler None e
  = ([Stdout ("Error fetching forecast: " ++ exn_str e)],
     Raise unbound_response).
Proof. reflexivity. Qed.

Lemma handler_bound (r : response) (e : exn) :
  get_forecast_handler (Some r) e
  = ([Stdout ("Error fetching forecast: " ++ exn_str e);
      Stdout ("Response status: "
              ++ (if response_ok r then int_str (status_code r) else "N/A"));
      Stdout ("Response text: "
              ++ (if response_ok r then str_slice_to 500 (text r) else "N/A"))],
     Return PNone).
Proof. reflexivity. Qed.

(** The half of the error handling of [get_forecast] that works: an answer
    with an error status gives [None]. *)
Lemma http_error_returns_none (location_id coordinates : option string)
  (lang : string) (r : response) :
  (forall req, net req = Responded r) ->
  response_ok r = false ->
  exists msg,
    get_forecast net location_id coordinates lang
    = ([Stdout ("Error fetching forecast: " ++ msg);
        Stdout "Response status: N/A"; Stdout "Response text: N/A"],
       Return PNone).
Proof.
  intros Hnet Hbad. destruct (status_error r Hbad) as (msg & Hmsg).
  exists msg. unfold get_forecast, session_get. rewrite Hnet, Hmsg.
  unfold try_except, bind, raise. cbn [is_request_exception].
  rewrite handler_bound, Hbad. reflexivity.
Qed.

(** A fetch that returns something other than [None] has printed nothing. *)
Lemma fetch_success_silent (location_id coordinates : option string)
  (lang : string) (out : list event) (forecast : pyval) :
  get_forecast net location_id coordinates lang = (out, Return forecast) ->
  forecast <> PNone ->
  out = [].
Proof.
  unfold get_forecast.
  destruct (session_get net _ _ _) as [msg | r].
  - rewrite handler_unbound. discriminate.
  - destruct (response_ok r) eqn:Hok.
    + rewrite (status_ok r Hok).
      unfold response_json. destruct (json r) as [v | msg]; simpl.
      * intros H _. inversion H. reflexivity.
      * intros H Hn. inversion H. congruence.
    + destruct (status_error r Hok) as (msg & ->). simpl.
      intros H Hn. inversion H. congruence.
Qed.


Lemma transport_error_reaches_handler (msg : string)
  (location_id coordinates : option string) (lang : string) :
  get_forecast (fun _ => ConnectionFailed msg) location_id coordinates lang
  = get_forecast_handler None (RequestException msg).
Proof. reflexivity. Qed.

(** C4 (defect of the code): when the connection fails, [session.get] raises
    before the local [response] is assigned; the handler of [get_forecast]
    prints its first line, then reads [response] and raises
    [UnboundLocalError], which leaves [get_forecast]: no [None] is
    returned. *)
Theorem transport_error_escapes_get_forecast
  (msg : string) (location_id coordinates : option string) (lang : string) :
  get_forecast (fun _ => ConnectionFailed msg) location_id coordinates lang
  = ([Stdout ("Error fetching forecast: " ++ msg)], Raise unbound_response).
Proof.
  rewrite transport_error_reaches_handler.
  exact (handler_unbound (RequestException msg)).
Qed.

(** The same exception leaves [get_current_conditions] and [main]: the
    process ends with a traceback and status 1, without the message of
    [main]. *)
Lemma transport_error_escapes_main (msg : string) (args : arguments) :
  main (fun _ => ConnectionFailed msg) args
  = ([Stdout ("Error fetching forecast: " ++ msg)], Raise unbound_response).
Proof.
  unfold main, get_current_conditions.
  rewrite transport_error_reaches_handler. reflexivity.
Qed.

(** *** The location search *)



(** *** Formatting *)


(** C6: for [{temperature: 3.456, weather: Vahelduv pilvisus,
    wind_speed: 4.2}], [format_minimal] gives the temperature rounded to an
    integer and the abbreviated label. *)
Theorem format_minimal_example :
  format_minimal
    (PDict [("temperature", PFloat (float_lit "3.456"));
            ("weather", PStr "Vahelduv pilvisus");
            ("wind_speed", PFloat (float_lit "4.2"))])
  = Return "3° Vahel. pilv".
Proof. vm_compute. reflexivity. Qed.

(** C7: for the same record with [wind_direction: NW], [format_simple] gives
    the temperature with one decimal, the label, and the wind speed as it
    is. *)
Theorem format_simple_example :
  format_simple
    (PDict [("temperature", PFloat (float_lit "3.456"));
            ("weather", PStr "Vahelduv pilvisus");
            ("wind_speed", PFloat (float_lit "4.2"));
            ("wind_direction", PStr "NW")])
  = Return "3.5°C • Vahelduv pilvisus • Tuul 4.2 m/s".
Proof. vm_compute. reflexivity. Qed.

(** What the extraction returns is [None] or a full record, and a record
    comes without any output. *)
Lemma extract_returns (forecast conditions : pyval) (out : list event) :
  extract_current_conditions forecast = (out, Return conditions) ->
  conditions <> PNone ->
  out = [] /\ truthy forecast = true
  /\ exists t weather weather_en w wind_dir p time_from location,
      conditions
      = conditions_record t weather weather_en w wind_dir p time_from location.
Proof.
  unfold extract_current_conditions.
  destruct (truthy forecast); cbn [negb];
    [ | intros H Hn; inversion H; congruence ].
  repeat
    match goal with
    | |- try_except (bind (lift ?m) _) _ _ = _ -> _ =>
        destruct m as [? | e];
        [ rewrite bind_lift_return
        | rewrite bind_lift_raise; unfold try_except;
          destruct (is_parse_error e); cbn;
          intros H Hn; inversion H; congruence ]
    | |- try_except (if ?b then _ else _) _ _ = _ -> _ =>
        destruct b; [ intros H Hn; inversion H; congruence | ]
    end.
  intros H _. inversion H. repeat split. repeat eexists.
Qed.







Lemma format_minimal_record (t w p : spec_float) (label : string)
  (weather_en wind_dir time_from location : pyval) :
  format_minimal
    (conditions_record t (PStr label) weather_en w wind_dir p time_from
       location)
  = Return (format_f 0 t ++ "° "
            ++ str_replace "Vahelduv" "Vahel."
                 (str_replace "pilvisus" "pilv" label)).
Proof. reflexivity. Qed.



(** *** The entry point *)



(** C9: the handler of the extraction catches [KeyError], [IndexError] and
    [TypeError] and nothing else; there is a response whose first entry has
    every required attribute, with a temperature that is no number, for
    which the [ValueError] of the float conversion leaves
    [get_current_conditions]. *)
Theorem value_error_escapes :
  (forall e,
      is_parse_error e = true
      <-> (exists k, e = KeyError k) \/ (exists m, e = IndexError m)
          \/ (exists m, e = TypeError m))
  /\ exists (world : request -> http_result) (forecast entry : pyval)
            (rest : list pyval) (temp msg : string),
      get_forecast world None (Some default_coordinates) "et"
      = ([], Return forecast)
      /\ path forecast time_path = Some (PList (entry :: rest))
      /\ (forall field, In field required_fields -> path entry field <> None)
      /\ path entry temperature_path = Some (PStr temp)
      /\ float_of_str temp = None
      /\ get_current_conditions world default_coordinates
         = ([], Raise (ValueError msg)).
Proof.
  split.
  - intros e. destruct e; simpl; split; intros H; try discriminate; eauto;
      destruct H as [(? & H) | [(? & H) | (? & H)]]; discriminate.
  - exists (answering sample_forecast_bad_number), sample_forecast_bad_number,
      (sample_entry (PStr "abc") (PStr "Vahelduv pilvisus")), [], "abc",
      "could not convert string to float: 'abc'".
    repeat split.
    intros field Hin.
    repeat (destruct Hin as [<- | Hin]; [ discriminate | ]).
    destruct Hin.
Qed.

End Properties.

(** ** The theorems at concrete inputs *)

Lemma extraction_matches_first_entry_witness :
  (path sample_forecast time_path = Some (PList [sample_first_entry])
   /\ path sample_first_entry temperature_path = Some (PStr "3.456")
   /\ float_of_str (U := ascii_only) "3.456" = Some (float_lit "3.456"))
  /\ get_current_conditions (U := ascii_only) (answering sample_forecast)
       default_coordinates
     = ([], Return (conditions_record
                      (float_lit "3.456") (PStr "Vahelduv pilvisus")
                      (PStr "Variable clouds") (float_lit "4.2") (PStr "NW")
                      (float_lit "0.3") (PStr "2025-01-15T14:00:00+02:00")
                      (PStr "Toomja"))).
Proof.
  split.
  - repeat split.
  - apply (extraction_matches_first_entry (U := ascii_only)
             (answering sample_forecast) default_coordinates []
             sample_forecast sample_first_entry [] "3.456" "4.2" "0.3");
      reflexivity.
Defined.

Lemma extraction_fails_softly_witness :
  get_current_conditions (U := ascii_only) (answering sample_forecast_empty)
    default_coordinates
  = ([], Return PNone)
  /\ (exists diag,
        get_current_conditions (U := ascii_only)
          (answering sample_forecast_no_time) default_coordinates
        = (diag, Return PNone))
  /\ (exists e,
        get_current_conditions (U := ascii_only)
          (answering sample_forecast_no_precipitation) default_coordinates
        = ([parse_diagnostic (U := ascii_only) e], Return PNone)).
Proof.
  split; [ | split ].
  - apply (proj1 (extraction_fails_softly (U := ascii_only)
                    (answering sample_forecast_empty) default_coordinates []
                    sample_forecast_empty eq_refl)).
    reflexivity.
  - destruct (proj1 (proj2 (extraction_fails_softly (U := ascii_only)
                              (answering sample_forecast_no_time)
                              default_coordinates []
                              sample_forecast_no_time eq_refl)) eq_refl)
      as (diag & H & _).
    exists diag. exact H.
  - destruct (proj2 (proj2 (extraction_fails_softly (U := ascii_only)
                              (answering sample_forecast_no_precipitation)
                              default_coordinates []
                              sample_forecast_no_precipitation eq_refl))
                _ [] precipitation_path eq_refl
                (or_intror (or_intror (or_intror (or_intror
                   (or_introl eq_refl))))) eq_refl)
      as (e & _ & H).
    exists e. exact H.
Defined.



Lemma missing_location_is_unknown_witness :
  path sample_forecast_unnamed ["location"] = None
  /\ get_current_conditions (U := ascii_only)
       (answering sample_forecast_unnamed) default_coordinates
     = ([], Return (conditions_record
                      (float_lit "3.456") (PStr "Vahelduv pilvisus")
                      (PStr "Variable clouds") (float_lit "4.2") (PStr "NW")
                      (float_lit "0.3") (PStr "2025-01-15T14:00:00+02:00")
                      (PStr "Unknown"))).
Proof.
  split.
  - reflexivity.
  - apply (missing_location_is_unknown (U := ascii_only)
             (answering sample_forecast_unnamed) default_coordinates []
             sample_forecast_unnamed sample_first_entry [] "3.456" "4.2" "0.3");
      reflexivity.
Defined.

(** ** Where the specification and the code part *)




(** ** Sample runs *)

Example run_simple :
  main (U := ascii_only) (answering sample_forecast)
    {| arg_coordinates := default_coordinates; arg_format := Simple |}
  = ([Stdout "3.5°C • Vahelduv pilvisus • Tuul 4.2 m/s"], Return tt).
Proof. vm_compute. reflexivity. Qed.

Example run_minimal :
  main (U := ascii_only) (answering sample_forecast)
    {| arg_coordinates := default_coordinates; arg_format := Minimal |}
  = ([Stdout "3° Vahel. pilv"], Return tt).
Proof. vm_compute. reflexivity. Qed.

Example run_detailed :
  main (U := ascii_only) (answering sample_forecast)
    {| arg_coordinates := default_coordinates; arg_format := Detailed |}
  = ([Stdout ("Location: Toomja" ++ LF
              ++ "Temperature: 3.5°C" ++ LF
              ++ "Conditions: Vahelduv pilvisus (Variable clouds)" ++ LF
              ++ "Wind: 4.2 m/s NW" ++ LF
              ++ "Precipitation: 0.3 mm" ++ LF
              ++ "Forecast time: 2025-01-15T14:00:00+02:00")],
     Return tt).
Proof. vm_compute. reflexivity. Qed.

Example run_missing_precipitation :
  main (U := ascii_only) (answering sample_forecast_no_precipitation)
    {| arg_coordinates := default_coordinates; arg_format := Simple |}
  = ([Stderr "Error parsing weather data: 'precipitation'"; failure_report],
     Raise (SystemExit 1)).
Proof. vm_compute. reflexivity. Qed.

Example run_bad_number :
  get_current_conditions (U := ascii_only) (answering sample_forecast_bad_number)
    default_coordinates
  = ([], Raise (ValueError "could not convert string to float: 'abc'")).
Proof. vm_compute. reflexivity. Qed.

Example run_unreachable :
  main (U := ascii_only) unreachable
    {| arg_coordinates := default_coordinates; arg_format := Simple |}
  = ([Stdout "Error fetching forecast: Connection refused"],
     Raise unbound_response).
Proof. vm_compute. reflexivity. Qed.

Example run_server_error :
  get_forecast (U := ascii_only) (refusing 503 "Service Unavailable")
    None (Some default_coordinates) "et"
  = ([Stdout ("Error fetching forecast: 503 Server Error: Service Unavailable"
              ++ " for url: https://www.ilmateenistus.ee/wp-content/themes/"
              ++ "ilm2020/meteogram.php");
      Stdout "Response status: N/A"; Stdout "Response text: N/A"],
     Return PNone).
Proof. vm_compute. reflexivity. Qed.

(** ** The builtins at sample values, as CPython gives them *)

Example float_literal_bits :
  float_lit "3.456" = S754_finite false 7782220156096217 (-51)
  /\ float_lit "4.2" = S754_finite false 4728779608739021 (-50)
  /\ float_lit "0.1" = S754_finite false 7205759403792794 (-56).
Proof. repeat split. Qed.

Example float_repr_samples :
  float_repr (float_lit "0.1") = "0.1"
  /\ float_repr (float_lit "1e22") = "1e+22"
  /\ float_repr (float_lit "1e16") = "1e+16"
  /\ float_repr (float_lit "1e-5") = "1e-05"
  /\ float_repr (float_lit "123456789") = "123456789.0"
  /\ float_repr (float_lit "0.30000000000000004") = "0.30000000000000004"
  /\ float_repr (float_lit "5e-324") = "5e-324"
  /\ float_repr (float_lit "1.7976931348623157e308") = "1.7976931348623157e+308".
Proof. vm_compute. repeat split. Qed.

Example format_f_samples :
  format_f 0 (float_lit "0.5") = "0"
  /\ format_f 0 (float_lit "1.5") = "2"
  /\ format_f 0 (float_lit "2.5") = "2"
  /\ format_f 1 (float_lit "0.25") = "0.2"
  /\ format_f 1 (float_lit "-0.04") = "-0.0"
  /\ format_f 2 (float_lit "2.675") = "2.67"
  /\ format_f 1 (float_lit "1e21") = "1000000000000000000000.0".
Proof. vm_compute. repeat split. Qed.

Example float_of_ascii_samples :
  float_of_ascii " 1_0.5e1 " = Some (float_lit "105")
  /\ float_of_ascii "1e400" = Some (S754_infinity false)
  /\ float_of_ascii "-Infinity" = Some (S754_infinity true)
  /\ float_of_ascii ".5" = Some (float_lit "0.5")
  /\ float_of_ascii "abc" = None
  /\ float_of_ascii "1e" = None
  /\ float_of_ascii "1__0" = None
  /\ float_of_ascii "" = None.
Proof. vm_compute. repeat split. Qed.

Example str_replace_samples :
  str_replace "pilvisus" "pilv" "Vahelduv pilvisus" = "Vahelduv pilv"
  /\ str_replace "Vahelduv" "Vahel." "Vahelduv pilv" = "Vahel. pilv"
  /\ str_replace "aa" "b" "aaaaa" = "bba"
  /\ str_replace "pilvisus" "pilv" "Selge" = "Selge".
Proof. repeat split. Qed.

(** ** Further properties of the fetch, the search and the extraction *)

Section FetchAndExtract.
Context {U : Unicode}.
Variable net : request -> http_result.

(** X1: when the answer has no error status and a JSON body, [get_forecast]
    returns the body as it is and prints nothing. *)
Theorem forecast_returned_verbatim
  (location_id coordinates : option string) (lang : string) (r : response)
  (body : pyval) :
  (forall req, net req = Responded r) ->
  response_ok r = true ->
  json r = inl body ->
  get_forecast net location_id coordinates lang = ([], Return body).
Proof.
  intros Hnet Hok Hjson. unfold get_forecast, session_get.
  rewrite Hnet, (status_ok r Hok). unfold response_json. rewrite Hjson.
  reflexivity.
Qed.

(** X2: when an answer arrives with an error status, or with a body that is
    no JSON, [get_forecast] returns [None] after three lines on standard
    output; the status and the text are shown only for a status that is no
    error. *)
Theorem failed_answer_gives_none
  (location_id coordinates : option string) (lang : string) (r : response) :
  (forall req, net req = Responded r) ->
  fetch_failed (Responded r) = true ->
  exists msg,
    get_forecast net location_id coordinates lang
    = ([Stdout ("Error fetching forecast: " ++ msg);
        Stdout ("Response status: "
                ++ (if response_ok r then int_str (status_code r) else "N/A"));
        Stdout ("Response text: "
                ++ (if response_ok r then str_slice_to 500 (text r)
                    else "N/A"))],
       Return PNone).
Proof.
  intros Hnet Hfail. unfold get_forecast, session_get. rewrite Hnet.
  simpl in Hfail. destruct (response_ok r) eqn:Hok.
  - rewrite (status_ok r Hok). unfold response_json.
    destruct (json r) as [v | msg]; [ discriminate | ].
    exists msg. cbn [bind ret raise try_except is_request_exception app].
    rewrite handler_bound, Hok. reflexivity.
  - destruct (status_error r Hok) as (msg & ->). exists msg.
    cbn [bind ret raise try_except is_request_exception app].
    rewrite handler_bound, Hok. reflexivity.
Qed.




(** X5: when the search fails (no connection, an error status, or a body
    that is no JSON), [search_location] prints one line and returns the
    empty list. *)
Theorem failed_search_gives_empty_list (query : string) (res : http_result) :
  (forall req, net req = res) ->
  fetch_failed res = true ->
  exists msg,
    search_location net query
    = ([Stdout ("Error searching location: " ++ msg)], Return (PList [])).
Proof.
  intros Hnet Hfail. unfold search_location, session_get. rewrite Hnet.
  destruct res as [msg | r]; [ exists msg; reflexivity | ].
  simpl in Hfail. destruct (response_ok r) eqn:Hok.
  - cbn [bind ret]. rewrite (status_ok r Hok). unfold response_json.
    destruct (json r) as [v | msg]; [ discriminate | ].
    exists msg. reflexivity.
  - cbn [bind ret]. destruct (status_error r Hok) as (msg & ->).
    exists msg. reflexivity.
Qed.

Lemma conditions_shape
  (coordinates : string) (out : list event) (conditions : pyval) :
  get_current_conditions net coordinates = (out, Return conditions) ->
  conditions = PNone
  \/ (out = []
      /\ exists t weather weather_en w wind_dir p time_from location,
        conditions
        = conditions_record t weather weather_en w wind_dir p time_from
            location).
Proof.
  intros Hc. unfold get_current_conditions in Hc.
  apply bind_return_inv in Hc as (out1 & out2 & forecast & Hf & He & ->).
  assert (Hcases : conditions = PNone \/ conditions <> PNone)
    by (destruct conditions; (left; reflexivity) || (right; discriminate)).
  destruct Hcases as [-> | Hn]; [ left; reflexivity | right ].
  destruct (extract_returns _ _ _ He Hn) as (-> & Htruthy & Hrec).
  split; [ | exact Hrec ].
  rewrite app_nil_r. eapply fetch_success_silent; [ exact Hf | ].
  intros ->. discriminate.
Qed.




(** X8: when the temperature of a complete first entry is an integer too
    large for a float, the [OverflowError] of the conversion leaves
    [get_current_conditions]: the handler does not catch it. *)
Theorem huge_integer_overflows
  (coordinates : string) (out : list event) (forecast entry : pyval)
  (rest : list pyval) (n : Z)
  (weather wind_speed wind_dir precip time_from : pyval) :
  get_forecast net None (Some coordinates) "et" = (out, Return forecast) ->
  path forecast time_path = Some (PList (entry :: rest)) ->
  path entry temperature_path = Some (PInt n) ->
  path entry weather_path = Some weather ->
  path entry wind_speed_path = Some wind_speed ->
  path entry wind_direction_path = Some wind_dir ->
  path entry precipitation_path = Some precip ->
  path entry forecast_time_path = Some time_from ->
  float_of_int n = None ->
  get_current_conditions net coordinates
  = (out, Raise (OverflowError "int too large to convert to float")).
Proof.
  intros Hfetch Htimes Ht Hw Hws Hwd Hp Hf Hn.
  rewrite <- (app_nil_r out).
  apply (conditions_after_fetch _ _ _ _ _ _ Hfetch).
  unfold extract_current_conditions.
  unfold time_path, temperature_path, wind_speed_path, wind_direction_path,
    precipitation_path, forecast_time_path in *.
  rewrite (path_truthy _ _ _ _ Htimes). cbn [negb].
  rewrite (path_subscripts _ _ _ Htimes), bind_lift_return.
  rewrite nonempty_not_empty, bind_lift_return.
  rewrite first_of_nonempty, bind_lift_return.
  rewrite (path_subscripts _ _ _ Ht), bind_lift_return.
  rewrite (path_subscripts _ _ _ Hw : subscripts _ [_; _; _] = _),
    bind_lift_return.
  rewrite (weather_en_lookup _ _ Hw), bind_lift_return.
  rewrite (path_subscripts _ _ _ Hws), bind_lift_return.
  rewrite (path_subscripts _ _ _ Hwd), bind_lift_return.
  rewrite (path_subscripts _ _ _ Hp), bind_lift_return.
  rewrite (path_subscripts _ _ _ Hf), bind_lift_return.
  cbn [py_float]. unfold int_to_float. rewrite Hn.
  reflexivity.
Qed.

(** X9: when [forecast.tabular.time] is an object that is not empty, not a
    list, [get_current_conditions] returns [None]: the subscript 0 is no
    key, and the diagnostic on standard error is the key alone. *)
Theorem single_entry_object_is_rejected
  (coordinates : string) (out : list event) (forecast : pyval)
  (item : string * pyval) (items : list (string * pyval)) :
  get_forecast net None (Some coordinates) "et" = (out, Return forecast) ->
  path forecast time_path = Some (PDict (item :: items)) ->
  get_current_conditions net coordinates
  = ((out ++ [Stderr "Error parsing weather data: 0"])%list, Return PNone).
Proof.
  intros Hfetch Htimes.
  apply (conditions_after_fetch _ _ _ _ _ _ Hfetch).
  unfold extract_current_conditions, time_path in *.
  rewrite (path_truthy _ _ _ _ Htimes). cbn [negb].
  rewrite (path_subscripts _ _ _ Htimes), bind_lift_return.
  assert (Hempty : (if negb (truthy (PDict (item :: items))) then Return true
                    else let? n := py_len (PDict (item :: items)) in
                         Return (n =? 0))
                   = Return false).
  { simpl.
    destruct (Z.eqb_spec (Z.pos (Pos.of_succ_nat (List.length items))) 0);
      [ lia | reflexivity ]. }
  rewrite Hempty, bind_lift_return.
  reflexivity.
Qed.

(** *** The entry point, further *)

Lemma format_minimal_needs_string (t w p : spec_float)
  (weather weather_en wind_dir time_from location : pyval) :
  is_str weather = false ->
  format_minimal
    (conditions_record t weather weather_en w wind_dir p time_from location)
  = Raise (no_attribute weather "replace").
Proof. destruct weather; (discriminate || reflexivity). Qed.


(** X11: with the [minimal] format, [main] prints nothing and ends with an
    [AttributeError] when the weather label of the conditions is no
    string. *)
Theorem main_minimal_needs_string_label
  (args : arguments) (out : list event) (t w p : spec_float)
  (weather weather_en wind_dir time_from location : pyval) :
  get_current_conditions net (arg_coordinates args)
  = (out, Return (conditions_record t weather weather_en w wind_dir p
                    time_from location)) ->
  arg_format args = Minimal ->
  is_str weather = false ->
  main net args = ([], Raise (no_attribute weather "replace"))
  /\ exit_status (main net args) = 1.
Proof.
  intros Hc Hfmt Hs.
  assert (out = []) as ->.
  { destruct (conditions_shape _ _ _ Hc) as [H | (H & _)];
      [ discriminate | exact H ]. }
  assert (Hm : main net args = ([], Raise (no_attribute weather "replace"))).
  { unfold main. apply (bind_prepend _ _ _ _ _ _ Hc).
    rewrite Hfmt. cbn [truthy negb List.length Nat.eqb conditions_record].
    rewrite (format_minimal_needs_string _ _ _ _ _ _ _ _ Hs). reflexivity. }
  rewrite Hm. split; reflexivity.
Qed.

(** *** The abbreviations of [format_minimal] *)

Lemma replace_absent (old new : string) (s : string) :
  occurs old s = false -> replace_from old new O s = s.
Proof.
  induction s as [ | c s IH]; intros H; [ reflexivity | ].
  cbn [occurs] in H. apply orb_false_iff in H as [Hp Ho].
  cbn [replace_from]. rewrite Hp, (IH Ho). reflexivity.
Qed.

Lemma str_replace_absent (old new s : string) :
  occurs old s = false -> str_replace old new s = s.
Proof.
  intros H. destruct old as [ | c old].
  - destruct s; discriminate.
  - apply replace_absent, H.
Qed.

(** X12: [format_minimal] abbreviates the two known words only: a label in
    which neither occurs is printed as it is, after the rounded
    temperature. *)
Theorem format_minimal_keeps_other_labels (t w p : spec_float) (label : string)
  (weather_en wind_dir time_from location : pyval) :
  occurs "pilvisus" label = false ->
  occurs "Vahelduv" label = false ->
  format_minimal
    (conditions_record t (PStr label) weather_en w wind_dir p time_from
       location)
  = Return (format_f 0 t ++ "° " ++ label).
Proof.
  intros Hp Hv. rewrite format_minimal_record.
  rewrite (str_replace_absent "pilvisus" "pilv" label Hp).
  rewrite (str_replace_absent "Vahelduv" "Vahel." label Hv).
  reflexivity.
Qed.

End FetchAndExtract.

(** ** Properties of the forecast table *)

Section TableProperties.
Context {U : Unicode} {R : Runtime}.

Lemma slice_to_firstn {A : Type} (stop : Z) (xs : list A) :
  0 <= stop -> seq_slice None (Some stop) xs = firstn (Z.to_nat stop) xs.
Proof.
  intros Hs. unfold seq_slice.
  destruct (Z.ltb_spec stop 0); [ lia | ].
  rewrite Z.sub_0_r. cbn [Z.to_nat skipn].
  destruct (Z.le_ge_cases stop (Z.of_nat (List.length xs))) as [Hle | Hge].
  - rewrite Z.min_l by assumption. reflexivity.
  - rewrite Z.min_r by assumption. rewrite Nat2Z.id.
    rewrite firstn_all. symmetry. apply firstn_all2. lia.
Qed.

Lemma slice_to_length {A : Type} (stop : Z) (xs : list A) :
  0 <= stop -> (List.length (seq_slice None (Some stop) xs) <= Z.to_nat stop)%nat.
Proof.
  intros Hs. rewrite slice_to_firstn by assumption. apply firstn_le_length.
Qed.

Lemma table_rows_length (entries : list pyval) :
  forall rows,
    table_rows entries = Return rows ->
    List.length rows = List.length (filter is_dict entries).
Proof.
  induction entries as [ | e rest IH]; intros rows H; simpl in *.
  - inversion H. reflexivity.
  - destruct (is_dict e); [ | auto ].
    destruct (forecast_row e) as [row | ]; simpl in H; [ | discriminate ].
    destruct (table_rows rest) as [rows' | ]; simpl in H; [ | discriminate ].
    inversion H. simpl. f_equal. auto.
Qed.

Lemma summary_lines_length (times : pyval) (lines : list string) :
  summary_lines times = Return lines -> (List.length lines <= 3)%nat.
Proof.
  unfold summary_lines.
  destruct (py_slice times None (Some 3)) as [first | ]; [ | discriminate ].
  cbn [obind].
  destruct (py_iter first) as [entries | ]; [ | discriminate ].
  cbn [obind].
  destruct (fold_outcome tally_entry entries empty_tally) as [t | ];
    [ | discriminate ].
  cbn [obind].
  destruct (temps t), (precips t), (phenomena t); cbn [obind];
    try (intros H; inversion H; simpl; lia);
    match goal with
    | |- context [py_join ?sep ?xs] =>
        destruct (py_join sep xs); cbn [obind];
        intros H; inversion H; simpl; lia
    end.
Qed.

(** The report for a forecast whose times are a list that is not empty. *)
Lemma report_on_list (data : pyval) (xs : list pyval) (hours : Z) :
  path data time_path = Some (PList xs) ->
  xs <> [] ->
  format_forecast_simple data hours
  = (let? rows := table_rows (seq_slice None (Some hours) xs) in
     let? summary := (if 3 <=? Z.of_nat (List.length xs)
                      then summary_lines (PList xs) else Return []) in
     Return (String.concat LF
               (report_head (location_of data) ++ [table_header; rule "-"]
                ++ rows ++ summary_head ++ summary))).
Proof.
  intros Hpath Hne. unfold format_forecast_simple.
  rewrite (path_truthy _ _ _ _ Hpath). cbn [negb].
  unfold time_path in Hpath. simpl in Hpath.
  destruct data as [ | | | | | | items ]; try discriminate.
  rewrite get_or_default. cbn [obind]. fold (location_of (PDict items)).
  cbn [py_get].
  destruct (dict_lookup "forecast" items) as [forecast | ]; [ | discriminate ].
  cbn [obind].
  destruct forecast as [ | | | | | | fitems ]; try discriminate.
  cbn [py_get].
  destruct (dict_lookup "tabular" fitems) as [tabular | ]; [ | discriminate ].
  cbn [obind].
  destruct tabular as [ | | | | | | titems ]; try discriminate.
  cbn [py_get].
  destruct (dict_lookup "time" titems) as [times | ]; [ | discriminate ].
  cbn [obind]. injection Hpath as ->.
  destruct xs as [ | x xs ]; [ congruence | ].
  cbn [truthy negb List.length Nat.eqb py_slice py_iter py_len obind].
  reflexivity.
Qed.

(** X13: for a forecast object that is not empty and in which [forecast],
    [tabular] or [time] is missing, or the time value is empty, the report
    is the four lines of the head and, after an empty line, the sentence
    that no data is available. *)
Theorem report_without_times (items : list (string * pyval)) (hours : Z) :
  items <> [] ->
  absent (PDict items) time_path = true
  \/ (exists times,
        path (PDict items) time_path = Some times /\ truthy times = false) ->
  format_forecast_simple (PDict items) hours
  = Return (String.concat LF
              (report_head (location_of (PDict items))
               ++ [LF ++ "No forecast data available"])).
Proof.
  intros Hne Hcase. unfold format_forecast_simple.
  assert (Ht : truthy (PDict items) = true)
    by (destruct items; [ congruence | reflexivity ]).
  rewrite Ht. cbn [negb].
  rewrite get_or_default. cbn [obind]. fold (location_of (PDict items)).
  unfold time_path in Hcase. cbn [absent path] in Hcase. cbn [py_get].
  destruct (dict_lookup "forecast" items) as [forecast | ];
    [ | reflexivity ].
  cbn [obind].
  destruct forecast as [ | | | | | | fitems ];
    try (destruct Hcase as [H | (? & H & _)]; discriminate).
  cbn [py_get].
  destruct (dict_lookup "tabular" fitems) as [tabular | ];
    [ | reflexivity ].
  cbn [obind].
  destruct tabular as [ | | | | | | titems ];
    try (destruct Hcase as [H | (? & H & _)]; discriminate).
  cbn [py_get].
  destruct (dict_lookup "time" titems) as [times | ]; [ | reflexivity ].
  cbn [obind].
  destruct Hcase as [H | (times' & H & Hf)]; [ discriminate | ].
  injection H as <-. rewrite Hf. reflexivity.
Qed.

(** X14: [format_forecast_simple] does not fail softly: when [forecast], or
    [tabular] inside it, is present and no object, the [AttributeError] of
    the [get] on it is raised. *)
Theorem report_needs_objects (items : list (string * pyval))
  (keys : list string) (v : pyval) (hours : Z) :
  items <> [] ->
  In keys [["forecast"]; ["forecast"; "tabular"]] ->
  path (PDict items) keys = Some v ->
  is_dict v = false ->
  format_forecast_simple (PDict items) hours = Raise (no_attribute v "get").
Proof.
  intros Hne Hin Hpath Hv. unfold format_forecast_simple.
  assert (Ht : truthy (PDict items) = true)
    by (destruct items; [ congruence | reflexivity ]).
  rewrite Ht. cbn [negb].
  rewrite get_or_default. cbn [obind py_get].
  destruct Hin as [<- | [<- | []]]; cbn [path] in Hpath.
  - destruct (dict_lookup "forecast" items) as [forecast | ];
      [ | discriminate ].
    injection Hpath as ->. cbn [obind].
    destruct v; try discriminate; reflexivity.
  - destruct (dict_lookup "forecast" items) as [forecast | ];
      [ | discriminate ].
    cbn [obind].
    destruct forecast as [ | | | | | | fitems ]; try discriminate.
    cbn [py_get].
    destruct (dict_lookup "tabular" fitems) as [tabular | ];
      [ | discriminate ].
    injection Hpath as ->. cbn [obind].
    destruct v; try discriminate; reflexivity.
Qed.

(** X15: a report over a list of times has the head, the table header, one
    row for each object among the first [hours] entries (entries that are
    no objects are passed over), the head of the summary and at most three
    summary lines; the table has at most [hours] rows. *)
Theorem report_structure (data : pyval) (xs : list pyval) (hours : Z)
  (text : string) :
  path data time_path = Some (PList xs) ->
  xs <> [] ->
  format_forecast_simple data hours = Return text ->
  exists rows summary,
    text = String.concat LF
             (report_head (location_of data) ++ [table_header; rule "-"]
              ++ rows ++ summary_head ++ summary)
    /\ List.length rows
       = List.length (filter is_dict (seq_slice None (Some hours) xs))
    /\ (0 <= hours -> (List.length rows <= Z.to_nat hours)%nat)
    /\ (List.length summary <= 3)%nat.
Proof.
  intros Hpath Hne. rewrite (report_on_list _ _ _ Hpath Hne).
  destruct (table_rows (seq_slice None (Some hours) xs)) as [rows | ] eqn:Hr;
    [ | discriminate ].
  cbn [obind].
  destruct (if 3 <=? Z.of_nat (List.length xs)
            then summary_lines (PList xs) else Return [])
    as [summary | ] eqn:Hs; [ | discriminate ].
  cbn [obind]. intros H. inversion H.
  exists rows, summary. split; [ reflexivity | ].
  pose proof (table_rows_length _ _ Hr) as Hlen.
  split; [ exact Hlen | ]. split.
  - intros Hh. rewrite Hlen.
    etransitivity; [ apply filter_length_le | ].
    apply slice_to_length, Hh.
  - destruct (3 <=? Z.of_nat (List.length xs)).
    + eapply summary_lines_length, Hs.
    + inversion Hs. simpl. lia.
Qed.

(** X16: the summary does not depend on [hours]: when the report for
    [hours] is returned, so is the report for no hours at all, and the
    former is the latter with the rows put in below the table header.  With
    fewer than three entries the summary is its head alone. *)
Theorem summary_ignores_hours (data : pyval) (xs : list pyval) (hours : Z)
  (text : string) :
  path data time_path = Some (PList xs) ->
  xs <> [] ->
  format_forecast_simple data hours = Return text ->
  exists rows summary,
    text = String.concat LF
             (report_head (location_of data) ++ [table_header; rule "-"]
              ++ rows ++ summary_head ++ summary)
    /\ format_forecast_simple data 0
       = Return (String.concat LF
                   (report_head (location_of data) ++ [table_header; rule "-"]
                    ++ summary_head ++ summary))
    /\ ((List.length xs < 3)%nat -> summary = []).
Proof.
  intros Hpath Hne.
  rewrite (report_on_list _ _ 0 Hpath Hne), (report_on_list _ _ _ Hpath Hne).
  destruct (table_rows (seq_slice None (Some hours) xs)) as [rows | ];
    [ | discriminate ].
  cbn [obind].
  destruct (if 3 <=? Z.of_nat (List.length xs)
            then summary_lines (PList xs) else Return [])
    as [summary | ] eqn:Hs; [ | discriminate ].
  cbn [obind]. intros H. inversion H.
  exists rows, summary. split; [ reflexivity | ]. split.
  - rewrite slice_to_firstn by lia. reflexivity.
  - intros Hlt. destruct (Z.leb_spec 3 (Z.of_nat (List.length xs)));
      [ lia | ].
    inversion Hs. reflexivity.
Qed.

(** *** Entries the summary cannot take, and entries it can *)

Lemma in_firstn {A : Type} (n : nat) :
  forall (xs : list A) (x : A), In x (firstn n xs) -> In x xs.
Proof.
  induction n as [ | n IH]; intros [ | y xs] x H; simpl in *; intuition.
Qed.

Lemma in_skipn {A : Type} (n : nat) :
  forall (xs : list A) (x : A), In x (skipn n xs) -> In x xs.
Proof.
  induction n as [ | n IH]; intros [ | y xs] x H; simpl in *; intuition.
Qed.

Lemma in_seq_slice {A : Type} (start stop : option Z) (xs : list A) (x : A) :
  In x (seq_slice start stop xs) -> In x xs.
Proof. unfold seq_slice. eauto using in_firstn, in_skipn. Qed.

Lemma attribute_of_path (entry : pyval) (element attribute : string)
  (default v : pyval) :
  path entry [element; "@attributes"; attribute] = Some v ->
  attribute_of entry element attribute default = Return v.
Proof.
  unfold attribute_of. cbn [path].
  destruct entry as [ | | | | | | items ]; try discriminate.
  cbn [py_get].
  destruct (dict_lookup element items) as [el | ]; [ | discriminate ].
  cbn [obind].
  destruct el as [ | | | | | | eitems ]; try discriminate.
  cbn [py_get].
  destruct (dict_lookup "@attributes" eitems) as [attrs | ];
    [ | discriminate ].
  cbn [obind].
  destruct attrs as [ | | | | | | aitems ]; try discriminate.
  cbn [py_get].
  destruct (dict_lookup attribute aitems); [ | discriminate ].
  intros H. inversion H. reflexivity.
Qed.

Lemma fold_outcome_raises {A B : Type} (f : A -> B -> outcome A) (x : B)
  (xs : list B) :
  (forall acc, exists e, f acc x = Raise e) ->
  In x xs ->
  forall acc, exists e, fold_outcome f xs acc = Raise e.
Proof.
  intros Hx. induction xs as [ | y xs IH]; intros Hin acc; [ destruct Hin | ].
  cbn [fold_outcome].
  destruct (f acc y) as [acc' | e] eqn:Hf; cbn [obind]; [ | eauto ].
  destruct Hin as [-> | Hin]; [ | auto ].
  destruct (Hx acc) as (e & He). congruence.
Qed.

(** X17: when one of the first three entries of at least three has a
    temperature that is a string [float] does not accept, no report is
    returned, whatever [hours] is: the summary converts what the table
    prints as it is. *)
Theorem summary_needs_numbers (data entry : pyval) (xs : list pyval)
  (hours : Z) (s : string) :
  path data time_path = Some (PList xs) ->
  (3 <= List.length xs)%nat ->
  In entry (firstn 3 xs) ->
  path entry temperature_path = Some (PStr s) ->
  s <> "" ->
  float_of_str s = None ->
  exists e, format_forecast_simple data hours = Raise e.
Proof.
  intros Hpath Hlen Hin Ht Hs Hf.
  assert (Hne : xs <> []) by (destruct xs; [ simpl in Hlen; lia | discriminate ]).
  rewrite (report_on_list _ _ _ Hpath Hne).
  destruct (table_rows (seq_slice None (Some hours) xs)) as [rows | e];
    cbn [obind]; [ | eauto ].
  destruct (Z.leb_spec 3 (Z.of_nat (List.length xs))); [ | lia ].
  unfold summary_lines. cbn [py_slice py_iter obind].
  rewrite slice_to_firstn by lia. change (Z.to_nat 3) with 3%nat.
  destruct (fold_outcome_raises tally_entry entry (firstn 3 xs)) with
    (acc := empty_tally) as (e & ->); [ | assumption | cbn [obind]; eauto ].
  intros acc. unfold tally_entry.
  assert (Hd : is_dict entry = true)
    by (destruct entry; try discriminate; reflexivity).
  rewrite Hd. unfold temperature_path in Ht.
  rewrite (attribute_of_path _ _ _ _ _ Ht). cbn [obind truthy].
  destruct (String.eqb_spec s "") as [-> | _]; [ congruence | ].
  cbn [negb py_float]. rewrite Hf. cbn [obind]. eauto.
Qed.

Lemma join_texts (sep : string) (xs : list pyval) :
  Forall (fun v => is_str v = true) xs ->
  forall i, exists text, py_join_from i sep xs = Return text.
Proof.
  induction 1 as [ | x xs Hx _ IH]; intros i; cbn [py_join_from]; eauto.
  destruct x; try discriminate.
  destruct (IH (i + 1)) as (tail & ->). cbn [obind]. eauto.
Qed.

Lemma complete_entry_fields (entry : pyval) :
  complete_entry entry = true ->
  is_dict entry = true
  /\ (forall field, In field required_fields ->
                    exists s, path entry field = Some (PStr s))
  /\ (exists s x, path entry temperature_path = Some (PStr s)
                  /\ float_of_str s = Some x)
  /\ (exists s x, path entry precipitation_path = Some (PStr s)
                  /\ float_of_str s = Some x).
Proof.
  unfold complete_entry. intros H.
  apply andb_true_iff in H as [H Hp]. apply andb_true_iff in H as [Hall Ht].
  assert (Hfields : forall field, In field required_fields ->
                                  exists s, path entry field = Some (PStr s)).
  { intros field Hin.
    pose proof (proj1 (forallb_forall _ _) Hall field Hin) as Hf.
    cbv beta in Hf. revert Hf.
    destruct (path entry field) as [[ | | | | s | | ] | ];
      cbn; try discriminate.
    eauto. }
  repeat split; try assumption.
  - destruct (Hfields temperature_path) as (s & Hs); [ simpl; auto | ].
    destruct entry; try discriminate; reflexivity.
  - revert Ht. unfold is_number_text.
    destruct (path entry temperature_path) as [[ | | | | s | | ] | ];
      cbn; try discriminate.
    destruct (float_of_str s) as [x | ] eqn:Hx; [ eauto | discriminate ].
  - revert Hp. unfold is_number_text.
    destruct (path entry precipitation_path) as [[ | | | | s | | ] | ];
      cbn; try discriminate.
    destruct (float_of_str s) as [x | ] eqn:Hx; [ eauto | discriminate ].
Qed.

Lemma time_column_text (s : string) :
  exists text, time_column (PStr s) = Return (PStr text).
Proof.
  unfold time_column. destruct (isoformat_hhmm s); [ eauto | ].
  cbn [py_len obind]. destruct (8 <? str_len s); cbn [py_slice]; eauto.
Qed.

Lemma forecast_row_complete (entry : pyval) :
  complete_entry entry = true -> exists row, forecast_row entry = Return row.
Proof.
  intros H. destruct (complete_entry_fields _ H) as (Hd & Hfields & _ & _).
  assert (Hfield : forall field,
             In field required_fields ->
             exists s, path entry field = Some (PStr s)) by exact Hfields.
  destruct (Hfield forecast_time_path) as (from & Hfrom); [ simpl; tauto | ].
  destruct (Hfield temperature_path) as (temp & Htemp); [ simpl; tauto | ].
  destruct (Hfield wind_speed_path) as (ws & Hws); [ simpl; tauto | ].
  destruct (Hfield wind_direction_path) as (wd & Hwd); [ simpl; tauto | ].
  destruct (Hfield precipitation_path) as (pr & Hpr); [ simpl; tauto | ].
  destruct (Hfield weather_path) as (we & Hwe); [ simpl; tauto | ].
  unfold forecast_row.
  unfold forecast_time_path, temperature_path, wind_speed_path,
    wind_direction_path, precipitation_path, weather_path in *.
  rewrite (attribute_of_path _ _ _ _ _ Htemp),
    (attribute_of_path _ _ _ _ _ Hws), (attribute_of_path _ _ _ _ _ Hpr),
    (attribute_of_path _ _ _ _ _ Hwe).
  cbn [path] in Hfrom, Hwd.
  destruct entry as [ | | | | | | items ]; try discriminate.
  cbn [py_get].
  destruct (dict_lookup "@attributes" items) as [attrs | ]; [ | discriminate ].
  destruct attrs as [ | | | | | | aitems ]; try discriminate.
  cbn [obind py_get].
  destruct (dict_lookup "from" aitems) as [v | ]; [ | discriminate ].
  injection Hfrom as ->. cbn [obind].
  destruct (time_column_text from) as (text & ->). cbn [obind].
  destruct (dict_lookup "windDirection" items) as [el | ]; [ | discriminate ].
  destruct el as [ | | | | | | eitems ]; try discriminate.
  cbn [obind py_get].
  destruct (dict_lookup "@attributes" eitems) as [wattrs | ];
    [ | discriminate ].
  destruct wattrs as [ | | | | | | witems ]; try discriminate.
  cbn [obind py_get].
  destruct (dict_lookup "name" witems) as [v | ]; [ | discriminate ].
  cbn [obind].
  destruct (dict_lookup "deg" witems); cbn [obind py_format_right]; eauto.
Qed.

Lemma table_rows_complete (entries : list pyval) :
  Forall (fun e => complete_entry e = true) entries ->
  exists rows, table_rows entries = Return rows.
Proof.
  induction 1 as [ | e entries He _ IH]; cbn [table_rows]; [ eauto | ].
  destruct (is_dict e); [ | exact IH ].
  destruct (forecast_row_complete _ He) as (row & ->).
  destruct IH as (rows & ->). cbn [obind]. eauto.
Qed.

Lemma tally_entry_complete (acc : tally) (entry : pyval) :
  complete_entry entry = true ->
  texts (phenomena acc) ->
  exists acc', tally_entry acc entry = Return acc' /\ texts (phenomena acc').
Proof.
  intros H Hacc.
  destruct (complete_entry_fields _ H)
    as (Hd & Hfields & (ts & tx & Ht & Htx) & (ps & px & Hp & Hpx)).
  destruct (Hfields weather_path) as (we & Hwe); [ simpl; tauto | ].
  unfold tally_entry. rewrite Hd.
  unfold temperature_path, precipitation_path, weather_path in *.
  rewrite (attribute_of_path _ _ _ _ _ Ht), (attribute_of_path _ _ _ _ _ Hp),
    (attribute_of_path _ _ _ _ _ Hwe).
  cbn [obind py_float]. rewrite Htx, Hpx.
  destruct (truthy (PStr ts)), (truthy (PStr ps)), (truthy (PStr we));
    cbn [obind is_list is_dict orb phenomena];
    eexists; (split; [ reflexivity | ]); cbn [phenomena];
    try assumption;
    apply Forall_app; split; try assumption; repeat constructor.
Qed.

Lemma fold_tally_complete (entries : list pyval) :
  Forall (fun e => complete_entry e = true) entries ->
  forall acc,
    texts (phenomena acc) ->
    exists acc',
      fold_outcome tally_entry entries acc = Return acc'
      /\ texts (phenomena acc').
Proof.
  induction 1 as [ | e entries He _ IH]; intros acc Hacc;
    cbn [fold_outcome]; [ eauto | ].
  destruct (tally_entry_complete acc e He Hacc) as (acc' & -> & Hacc').
  cbn [obind]. auto.
Qed.

(** X18: over a list of complete entries the report is returned for every
    [hours]: no row and no summary line raises, provided that iterating a
    set of strings yields strings. *)
Theorem report_of_complete_entries (data : pyval) (xs : list pyval)
  (hours : Z) :
  (forall added, texts added -> texts (set_iteration added)) ->
  path data time_path = Some (PList xs) ->
  xs <> [] ->
  Forall (fun e => complete_entry e = true) xs ->
  exists text, format_forecast_simple data hours = Return text.
Proof.
  intros Hset Hpath Hne Hall.
  rewrite (report_on_list _ _ _ Hpath Hne).
  assert (Hsub : forall start stop,
             Forall (fun e => complete_entry e = true)
               (seq_slice start stop xs)).
  { intros start stop. apply Forall_forall. intros e He.
    apply (proj1 (Forall_forall _ _) Hall). eapply in_seq_slice, He. }
  destruct (table_rows_complete _ (Hsub None (Some hours))) as (rows & ->).
  cbn [obind].
  destruct (3 <=? Z.of_nat (List.length xs)); [ | cbn [obind]; eauto ].
  unfold summary_lines. cbn [py_slice py_iter obind].
  destruct (fold_tally_complete _ (Hsub None (Some 3)) empty_tally)
    as (t & -> & Ht); [ constructor | ].
  cbn [obind].
  destruct (phenomena t) as [ | v added] eqn:Hph; [ cbn [obind]; eauto | ].
  assert (Hel : texts (set_elements (v :: added))).
  { unfold set_elements.
    destruct (forallb (same_str v) added); [ | apply Hset, Ht ].
    inversion Ht. repeat constructor. assumption. }
  destruct (join_texts ", " _ Hel 0) as (labels & Hj).
  unfold py_join. rewrite Hj. cbn [obind]. eauto.
Qed.

End TableProperties.

(** ** The further properties at concrete inputs *)

Lemma sample_runtime_texts (added : list pyval) :
  texts added -> texts (set_iteration (Runtime := sample_runtime) added).
Proof.
  unfold texts. cbn [set_iteration sample_runtime].
  assert (H : forall seen : list pyval,
             Forall (fun v => is_str v = true) seen ->
             Forall (fun v => is_str v = true) added ->
             Forall (fun v => is_str v = true)
               (fold_left (fun seen v => if existsb (same_str v) seen then seen
                                         else (seen ++ [v])%list) added seen)).
  { induction added as [ | v added IH]; intros seen Hseen Hadded;
      [ exact Hseen | ].
    inversion Hadded as [ | ? ? Hv Hrest]; subst. cbn [fold_left].
    apply IH; [ | exact Hrest ].
    destruct (existsb (same_str v) seen); [ exact Hseen | ].
    apply Forall_app. split; [ exact Hseen | repeat constructor; exact Hv ]. }
  apply H. constructor.
Qed.

Lemma forecast_returned_verbatim_witness :
  get_forecast (U := ascii_only) (always (sample_answer sample_forecast))
    None (Some default_coordinates) "et"
  = ([], Return sample_forecast).
Proof.
  apply (forecast_returned_verbatim (U := ascii_only)
           (always (sample_answer sample_forecast)) None
           (Some default_coordinates) "et" (sample_answer sample_forecast)
           sample_forecast (fun _ => eq_refl) eq_refl eq_refl).
Defined.

Lemma failed_answer_gives_none_witness :
  exists msg,
    get_forecast (U := ascii_only) (always sample_not_found)
      None (Some default_coordinates) "et"
    = ([Stdout ("Error fetching forecast: " ++ msg);
        Stdout "Response status: N/A"; Stdout "Response text: N/A"],
       Return PNone).
Proof.
  exact (failed_answer_gives_none (U := ascii_only) (always sample_not_found)
           None (Some default_coordinates) "et" sample_not_found
           (fun _ => eq_refl) eq_refl).
Defined.


Lemma failed_search_gives_empty_list_witness :
  exists msg,
    search_location (U := ascii_only) unreachable "Toomja"
    = ([Stdout ("Error searching location: " ++ msg)], Return (PList [])).
Proof.
  exact (failed_search_gives_empty_list (U := ascii_only) unreachable "Toomja"
           (ConnectionFailed "Connection refused") (fun _ => eq_refl) eq_refl).
Defined.



Lemma huge_integer_overflows_witness :
  get_current_conditions (U := ascii_only)
    (answering sample_forecast_huge_number) default_coordinates
  = ([], Raise (OverflowError "int too large to convert to float")).
Proof.
  apply (huge_integer_overflows (U := ascii_only)
           (answering sample_forecast_huge_number) default_coordinates []
           sample_forecast_huge_number
           (sample_entry (PInt (10 ^ 400)) (PStr "Vahelduv pilvisus")) []
           (10 ^ 400) (PStr "Vahelduv pilvisus") (PStr "4.2") (PStr "NW")
           (PStr "0.3") (PStr "2025-01-15T14:00:00+02:00"));
    reflexivity.
Defined.

Lemma single_entry_object_is_rejected_witness :
  get_current_conditions (U := ascii_only) (answering sample_forecast_single)
    default_coordinates
  = ([Stderr "Error parsing weather data: 0"], Return PNone).
Proof.
  eapply (single_entry_object_is_rejected (U := ascii_only)
            (answering sample_forecast_single) default_coordinates []
            sample_forecast_single);
    reflexivity.
Defined.

Lemma main_minimal_needs_string_label_witness :
  main (U := ascii_only) (answering sample_forecast_bad_label)
    {| arg_coordinates := default_coordinates; arg_format := Minimal |}
  = ([], Raise (no_attribute (PInt 5) "replace"))
  /\ exit_status
       (main (U := ascii_only) (answering sample_forecast_bad_label)
          {| arg_coordinates := default_coordinates; arg_format := Minimal |})
     = 1.
Proof.
  apply (main_minimal_needs_string_label (U := ascii_only)
           (answering sample_forecast_bad_label)
           {| arg_coordinates := default_coordinates; arg_format := Minimal |}
           [] (float_lit "3.456") (float_lit "4.2") (float_lit "0.3")
           (PInt 5) (PStr "Variable clouds") (PStr "NW")
           (PStr "2025-01-15T14:00:00+02:00") (PStr "Unknown"));
    [ vm_compute; reflexivity | reflexivity | reflexivity ].
Defined.

Lemma format_minimal_keeps_other_labels_witness :
  format_minimal (U := ascii_only)
    (conditions_record (float_lit "-1.5") (PStr "Selge") (PStr "Clear")
       (float_lit "1.0") (PStr "N") (float_lit "0")
       (PStr "2025-01-15T15:00:00+02:00") (PStr "Toomja"))
  = Return (format_f 0 (float_lit "-1.5") ++ "° Selge").
Proof.
  apply (format_minimal_keeps_other_labels (U := ascii_only)
           (float_lit "-1.5")
           (float_lit "1.0") (float_lit "0") "Selge");
    reflexivity.
Defined.

Lemma report_without_times_witness :
  format_forecast_simple (U := ascii_only) (R := sample_runtime)
    (PDict [("location", PStr "Toomja")]) 24
  = Return (String.concat LF
              (report_head (U := ascii_only) (R := sample_runtime)
                 (PStr "Toomja")
               ++ [LF ++ "No forecast data available"])).
Proof.
  apply (report_without_times (U := ascii_only) (R := sample_runtime)
           [("location", PStr "Toomja")] 24);
    [ discriminate | left; reflexivity ].
Defined.

Lemma report_needs_objects_witness :
  format_forecast_simple (U := ascii_only) (R := sample_runtime)
    sample_forecast_list 24
  = Raise (no_attribute (PList [PInt 1]) "get").
Proof.
  apply (report_needs_objects (U := ascii_only) (R := sample_runtime)
           [("forecast", PList [PInt 1])] ["forecast"] (PList [PInt 1]) 24);
    [ discriminate | left; reflexivity | reflexivity | reflexivity ].
Defined.

Lemma report_structure_witness :
  exists text rows summary,
    format_forecast_simple (U := ascii_only) (R := sample_runtime)
      sample_forecast_three 2
    = Return text
    /\ text = String.concat LF
                (report_head (U := ascii_only) (R := sample_runtime)
                   (PStr "Toomja")
                 ++ [table_header; rule "-"] ++ rows
                 ++ summary_head ++ summary)
    /\ List.length rows = 2%nat
    /\ (List.length summary <= 3)%nat.
Proof.
  destruct (format_forecast_simple (U := ascii_only) (R := sample_runtime)
              sample_forecast_three 2) as [text | e] eqn:Hrun;
    [ | vm_compute in Hrun; discriminate Hrun ].
  destruct (report_structure (U := ascii_only) (R := sample_runtime)
              sample_forecast_three
              [sample_first_entry; sample_later_entry; sample_later_entry]
              2 text eq_refl ltac:(discriminate) Hrun)
    as (rows & summary & Htext & Hrows & _ & Hsummary).
  exists text, rows, summary. repeat split; assumption.
Defined.

Lemma summary_ignores_hours_witness :
  exists text rows summary,
    format_forecast_simple (U := ascii_only) (R := sample_runtime)
      sample_forecast_three 2
    = Return text
    /\ text = String.concat LF
                (report_head (U := ascii_only) (R := sample_runtime)
                   (PStr "Toomja")
                 ++ [table_header; rule "-"] ++ rows
                 ++ summary_head ++ summary)
    /\ format_forecast_simple (U := ascii_only) (R := sample_runtime)
         sample_forecast_three 0
       = Return (String.concat LF
                   (report_head (U := ascii_only) (R := sample_runtime)
                      (PStr "Toomja")
                    ++ [table_header; rule "-"] ++ summary_head ++ summary)).
Proof.
  destruct (format_forecast_simple (U := ascii_only) (R := sample_runtime)
              sample_forecast_three 2) as [text | e] eqn:Hrun;
    [ | vm_compute in Hrun; discriminate Hrun ].
  destruct (summary_ignores_hours (U := ascii_only) (R := sample_runtime)
              sample_forecast_three
              [sample_first_entry; sample_later_entry; sample_later_entry]
              2 text eq_refl ltac:(discriminate) Hrun)
    as (rows & summary & Htext & Hzero & _).
  exists text, rows, summary. repeat split; assumption.
Defined.

Lemma summary_needs_numbers_witness :
  exists e,
    format_forecast_simple (U := ascii_only) (R := sample_runtime)
      sample_forecast_three_bad 0
    = Raise e.
Proof.
  apply (summary_needs_numbers (U := ascii_only) (R := sample_runtime)
           sample_forecast_three_bad
           (sample_entry (PStr "abc") (PStr "Selge"))
           [sample_first_entry; sample_entry (PStr "abc") (PStr "Selge");
            sample_later_entry]
           0 "abc");
    [ reflexivity | simpl; lia | right; left; reflexivity | reflexivity
    | discriminate | vm_compute; reflexivity ].
Defined.

Lemma report_of_complete_entries_witness :
  exists text,
    format_forecast_simple (U := ascii_only) (R := sample_runtime)
      sample_forecast_three 24
    = Return text.
Proof.
  apply (report_of_complete_entries (U := ascii_only) (R := sample_runtime)
           sample_forecast_three
           [sample_first_entry; sample_later_entry; sample_later_entry] 24
           sample_runtime_texts);
    [ reflexivity | discriminate | ].
  repeat constructor.
Defined.

(** ** Sample rows and summaries *)

Example run_forecast_row :
  forecast_row (U := ascii_only) (R := sample_runtime) sample_first_entry
  = Return "14:00 | 3.456°C |   4.2 m/s NW | 0.3 mm |    Vahelduv pilvisus"
  /\ forecast_row (U := ascii_only) (R := sample_runtime) sample_later_entry
     = Return "15:00 | -1.5°C |    1.0 m/s N |   0 mm |                Selge".
Proof. split; vm_compute; reflexivity. Qed.

Example run_summary_lines :
  summary_lines (U := ascii_only) (R := sample_runtime)
    (PList [sample_first_entry; sample_later_entry; sample_later_entry])
  = Return ["Temperature: -1.5°C - 3.5°C"; "Total precipitation: 0.3 mm";
            "Conditions: Vahelduv pilvisus, Selge"].
Proof. vm_compute. reflexivity. Qed.

Example run_report_row_without_attributes :
  forecast_row (U := ascii_only) (R := sample_runtime) (PDict [])
  = Return "      |   N/A |  N/A m/s N/A |   0 mm |                  N/A".
Proof. vm_compute. reflexivity. Qed.
